(** * timepro: the time-tracking application, embedded and verified

    The development follows the repository file by file:
    - [Js]      the fragment of the JavaScript runtime the program uses
                (numbers with NaN, [||] on numbers, [parseInt],
                [Array.prototype.slice] and [sort], [Date]);
    - [Page]    src/app/page.tsx: the state and its operations;
    - [Timer]   the timer component (handlers and their guards);
    - [History] the history component (filter, totals, pagination);
    - [Charts]  the analytics component (totals and weekly series).

    Conventions.  A JS number that the program keeps integral (seconds,
    milliseconds, counts) is an exact integer or NaN; binary64 rounding is
    not modelled.  A quantity of hours [x / 3600] is held by its exact
    numerator in seconds.  A JS string is a [string] whose characters stand
    for its code units; comparison is lexicographic on code units.  The
    clock is an argument: every reading [new Date()] or [Date.now()] is a
    time value in milliseconds.  Local time is UTC plus a constant offset
    [tz]; a string is read back as a date the way V8 does it.  React state
    is passed explicitly: every handler maps the state of the render it was
    created in to the next state. *)

From Stdlib Require Import ZArith List String Ascii Bool Lia Permutation.
From Stdlib Require Import Sorted DecimalString DecimalPos DecimalZ.
Import ListNotations.

Local Open Scope string_scope.
Local Open Scope Z_scope.

(* ===================================================================== *)
(** * The JavaScript runtime fragment *)
(* ===================================================================== *)

Module Js.

(** ** Numbers *)

Inductive number : Type :=
| Num (z : Z)
| NaN.

Definition add (a b : number) : number :=
  match a, b with
  | Num x, Num y => Num (x + y)
  | _, _ => NaN
  end.

Definition sub (a b : number) : number :=
  match a, b with
  | Num x, Num y => Num (x - y)
  | _, _ => NaN
  end.

Definition mul (a b : number) : number :=
  match a, b with
  | Num x, Num y => Num (x * y)
  | _, _ => NaN
  end.

(** [Math.floor(a / k)] for a positive constant [k]. *)
Definition floorDiv (a : number) (k : Z) : number :=
  match a with
  | Num x => Num (x / k)
  | NaN => NaN
  end.

(** [Math.ceil(a / k)] on integers, [k] positive. *)
Definition ceilDiv (a k : Z) : Z := - ((- a) / k).

(** ToBoolean on a number: [0] and [NaN] are falsy. *)
Definition truthy (a : number) : bool :=
  match a with
  | Num x => negb (x =? 0)
  | NaN => false
  end.

(** [a || b] where [a] is an optional number ([undefined] when absent). *)
Definition orElse (a : option number) (b : number) : number :=
  match a with
  | Some x => if truthy x then x else b
  | None => b
  end.

(** ToBoolean on a string: only the empty string is falsy. *)
Definition nonEmpty (s : string) : bool :=
  match s with
  | EmptyString => false
  | String _ _ => true
  end.

(** ** Strings *)

(** [n.toString()] for an integer [n]. *)
Definition toString (z : Z) : string := NilZero.string_of_int (Z.to_int z).

(** [s.split('T')[0]]: the part of [s] before its first ['T']. *)
Fixpoint beforeT (s : string) : string :=
  match s with
  | EmptyString => EmptyString
  | String c rest =>
      if Ascii.eqb c "T" then EmptyString else String c (beforeT rest)
  end.

Definition code (c : ascii) : Z := Z.of_nat (nat_of_ascii c).

Definition digitChar (d : Z) : ascii := ascii_of_nat (Z.to_nat (48 + d)).

(** The last [width] decimal digits of [n]: the zero-padded rendering of
    [n] when [0 <= n < 10 ^ width]. *)
Fixpoint padded (width : nat) (n : Z) : string :=
  match width with
  | O => EmptyString
  | S w => padded w (n / 10) ++ String (digitChar (n mod 10)) EmptyString
  end.

(** The value of a character as a digit in the given radix (10 or 16). *)
Definition digitOf (radix : Z) (c : ascii) : option Z :=
  let n := code c in
  let v := if (48 <=? n) && (n <=? 57) then n - 48
           else if (97 <=? n) && (n <=? 102) then n - 87
           else if (65 <=? n) && (n <=? 70) then n - 55
           else 99 in
  if v <? radix then Some v else None.

(** The longest prefix of digits, read in [radix], with the digits seen so
    far in [acc]; [None] when there has been no digit at all. *)
Fixpoint digitsPrefix (radix : Z) (s : string) (acc : option Z) : option Z :=
  match s with
  | EmptyString => acc
  | String c rest =>
      match digitOf radix c with
      | Some v =>
          digitsPrefix radix rest
            (Some (match acc with Some a => a * radix + v | None => v end))
      | None => acc
      end
  end.

(** White space and line terminators among the code units below 256. *)
Definition isWhite (c : ascii) : bool :=
  let n := code c in
  ((9 <=? n) && (n <=? 13)) || (n =? 32) || (n =? 160).

Fixpoint trimStart (s : string) : string :=
  match s with
  | EmptyString => EmptyString
  | String c rest => if isWhite c then trimStart rest else s
  end.

(** [parseInt(s)] with no radix argument: leading white space is skipped, a
    sign is read, a [0x]/[0X] prefix selects radix 16, the longest prefix of
    digits is the value, and a string without any digit gives [NaN]. *)
Definition parseInt (s : string) : number :=
  let s := trimStart s in
  let '(sign, s) :=
    match s with
    | String "-" rest => (-1, rest)
    | String "+" rest => (1, rest)
    | _ => (1, s)
    end in
  let '(radix, s) :=
    match s with
    | String "0" (String "x" rest) => (16, rest)
    | String "0" (String "X" rest) => (16, rest)
    | _ => (10, s)
    end in
  match digitsPrefix radix s None with
  | Some v => Num (sign * v)
  | None => NaN
  end.

(** [a % k] on integers: the remainder takes the sign of [a]. *)
Definition remBy (a : number) (k : Z) : number :=
  match a with
  | Num x => Num (Z.rem x k)
  | NaN => NaN
  end.

(** [a.toString()] for a number of the model. *)
Definition numberToString (a : number) : string :=
  match a with
  | Num z => toString z
  | NaN => "NaN"
  end.

(** [s.padStart(2, '0')] *)
Definition padStart2 (s : string) : string :=
  match s with
  | EmptyString => "00"
  | String c EmptyString => String "0" s
  | _ => s
  end.

Fixpoint trimEnd (s : string) : string :=
  match s with
  | EmptyString => EmptyString
  | String c rest =>
      match trimEnd rest with
      | EmptyString => if isWhite c then EmptyString else String c EmptyString
      | kept => String c kept
      end
  end.

(** [s.trim()] *)
Definition trim (s : string) : string := trimEnd (trimStart s).

(** The value of a string of decimal digits that follows the digits of
    value [acc] (auxiliary, for the proofs about [parseInt]). *)
Fixpoint decimalValue (d : Decimal.uint) (acc : Z) : Z :=
  match d with
  | Decimal.Nil => acc
  | Decimal.D0 r => decimalValue r (acc * 10 + 0)
  | Decimal.D1 r => decimalValue r (acc * 10 + 1)
  | Decimal.D2 r => decimalValue r (acc * 10 + 2)
  | Decimal.D3 r => decimalValue r (acc * 10 + 3)
  | Decimal.D4 r => decimalValue r (acc * 10 + 4)
  | Decimal.D5 r => decimalValue r (acc * 10 + 5)
  | Decimal.D6 r => decimalValue r (acc * 10 + 6)
  | Decimal.D7 r => decimalValue r (acc * 10 + 7)
  | Decimal.D8 r => decimalValue r (acc * 10 + 8)
  | Decimal.D9 r => decimalValue r (acc * 10 + 9)
  end.

(** ** Arrays *)

(** [l.slice(start, end)], with negative indices counted from the end. *)
Definition slice {A : Type} (start stop : Z) (l : list A) : list A :=
  let len := Z.of_nat (List.length l) in
  let k := if start <? 0 then Z.max (len + start) 0 else Z.min start len in
  let final := if stop <? 0 then Z.max (len + stop) 0 else Z.min stop len in
  firstn (Z.to_nat (final - k)) (skipn (Z.to_nat k) l).

(** [l.slice(start)] *)
Definition sliceFrom {A : Type} (start : Z) (l : list A) : list A :=
  slice start (Z.of_nat (List.length l)) l.

Section Sort.
Context {A : Type} (compareFn : A -> A -> number).

(** The comparator puts [a] after [b] when its result is positive; a
    result of [0] or [NaN] leaves the two in their order. *)
Definition sortsAfter (a b : A) : bool :=
  match compareFn a b with
  | Num v => 0 <? v
  | NaN => false
  end.

Fixpoint insertSorted (x : A) (l : list A) : list A :=
  match l with
  | [] => [x]
  | y :: rest =>
      if sortsAfter x y then y :: insertSorted x rest else x :: l
  end.

(** [l.sort(compareFn)]: the stable sort, which a consistent comparator
    determines uniquely. *)
Definition sort (l : list A) : list A := fold_right insertSorted [] l.
End Sort.

(** ** Date *)

Definition msPerDay : Z := 86400000.

Definition Day (t : Z) : Z := t / msPerDay.
Definition TimeWithinDay (t : Z) : Z := t mod msPerDay.

(** Year, month (1-12) and day of month of a day number (days since
    1970-01-01, proleptic Gregorian calendar). *)
Definition civilFromDays (z : Z) : Z * Z * Z :=
  let z := z + 719468 in
  let era := z / 146097 in
  let doe := z mod 146097 in
  let yoe := (doe - doe / 1460 + doe / 36524 - doe / 146096) / 365 in
  let doy := doe - (365 * yoe + yoe / 4 - yoe / 100) in
  let mp := (5 * doy + 2) / 153 in
  let d := doy - (153 * mp + 2) / 5 + 1 in
  let m := if mp <? 10 then mp + 3 else mp - 9 in
  (yoe + era * 400 + (if m <=? 2 then 1 else 0), m, d).

(** The day number of a year, month and day of month; a day of month past
    the end of the month runs into the next one. *)
Definition daysFromCivil (y m d : Z) : Z :=
  let y := if m <=? 2 then y - 1 else y in
  let era := y / 400 in
  let yoe := y mod 400 in
  let doy := (153 * (if 2 <? m then m - 3 else m + 9) + 2) / 5 + d - 1 in
  let doe := yoe * 365 + yoe / 4 - yoe / 100 + doy in
  era * 146097 + doe - 719468.

(** ** Auxiliary definitions for the calendar proofs *)

(** The day of the era on which year [Y] of the era starts and ends (years
    run from March), and the quantity [civilFromDays] divides by 365. *)
Definition yearStart (Y : Z) : Z := 365 * Y + Y / 4 - Y / 100.

Definition yearEnd (Y : Z) : Z :=
  if Y =? 399 then 146096 else yearStart (Y + 1) - 1.

Definition eraG (doe : Z) : Z :=
  doe - doe / 1460 + doe / 36524 - doe / 146096.

Fixpoint allFrom (n : nat) (z : Z) (f : Z -> bool) : bool :=
  match n with
  | O => true
  | S k => f z && allFrom k (z + 1) f
  end.

Definition yearCheck (Y : Z) : bool :=
  (eraG (yearStart Y) / 365 =? Y) && (eraG (yearEnd Y) / 365 =? Y)
  && (yearStart Y <=? yearEnd Y) && (yearEnd Y - yearStart Y <=? 365).

Definition monthDayCheck (doy : Z) : bool :=
  let mp := (5 * doy + 2) / 153 in
  let d := doy - (153 * mp + 2) / 5 + 1 in
  (0 <=? mp) && (mp <=? 11) && (1 <=? d) && (d <=? 31).

(** [0] is Sunday; day [0] (1970-01-01) was a Thursday. *)
Definition WeekDay (day : Z) : Z := (day + 4) mod 7.

Definition isoDate (day : Z) : string :=
  let '(y, m, d) := civilFromDays day in
  (if (0 <=? y) && (y <=? 9999) then padded 4 y
   else (if y <? 0 then "-" else "+") ++ padded 6 (Z.abs y))
  ++ "-" ++ padded 2 m ++ "-" ++ padded 2 d.

(** [new Date(t).toISOString()] for a time value [t]. *)
Definition isoString (t : Z) : string :=
  let ms := TimeWithinDay t in
  isoDate (Day t) ++ "T" ++ padded 2 (ms / 3600000) ++ ":"
  ++ padded 2 (ms / 60000 mod 60) ++ ":" ++ padded 2 (ms / 1000 mod 60)
  ++ "." ++ padded 3 (ms mod 1000) ++ "Z".

(** [d.toISOString()] on a Date object, given by its time value: it throws
    a RangeError ([None]) on an invalid date. *)
Definition toISOString (d : number) : option string :=
  match d with
  | Num t => Some (isoString t)
  | NaN => None
  end.

Definition digits2 (a b : ascii) : option Z :=
  match digitOf 10 a, digitOf 10 b with
  | Some x, Some y => Some (x * 10 + y)
  | _, _ => None
  end.

Definition digits3 (a b c : ascii) : option Z :=
  match digitOf 10 a, digits2 b c with
  | Some x, Some y => Some (x * 100 + y)
  | _, _ => None
  end.

Definition digits4 (a b c d : ascii) : option Z :=
  match digits2 a b, digits2 c d with
  | Some x, Some y => Some (x * 100 + y)
  | _, _ => None
  end.

(** A calendar day [YYYY-MM-DD] at the head of [s], with what follows it.
    As in V8, a month is 1-12 and a day of month 1-31. *)
Definition parseIsoDay (s : string) : option (Z * string) :=
  match s with
  | String y1 (String y2 (String y3 (String y4 (String "-"
      (String m1 (String m2 (String "-" (String d1 (String d2 rest))))))))) =>
      match digits4 y1 y2 y3 y4, digits2 m1 m2, digits2 d1 d2 with
      | Some y, Some m, Some d =>
          if (1 <=? m) && (m <=? 12) && (1 <=? d) && (d <=? 31)
          then Some (daysFromCivil y m 1 + d - 1, rest)
          else None
      | _, _, _ => None
      end
  | _ => None
  end.

(** A time of day [THH:mm:ss.sssZ], in milliseconds. *)
Definition parseIsoTime (s : string) : option Z :=
  match s with
  | String "T" (String h1 (String h2 (String ":" (String n1 (String n2
      (String ":" (String s1 (String s2 (String "." (String f1 (String f2
      (String f3 (String "Z" EmptyString))))))))))))) =>
      match digits2 h1 h2, digits2 n1 n2, digits2 s1 s2, digits3 f1 f2 f3 with
      | Some h, Some mi, Some sec, Some ms =>
          if ((h <=? 23) && (mi <=? 59) && (sec <=? 59))
             || ((h =? 24) && (mi =? 0) && (sec =? 0) && (ms =? 0))
          then Some (h * 3600000 + mi * 60000 + sec * 1000 + ms)
          else None
      | _, _, _, _ => None
      end
  | _ => None
  end.

(** The two ISO forms the program writes: a calendar day (UTC midnight) and
    the full form of [toISOString]. *)
Definition parseIso (s : string) : option Z :=
  match parseIsoDay s with
  | Some (day, EmptyString) => Some (day * msPerDay)
  | Some (day, rest) =>
      match parseIsoTime rest with
      | Some ms => Some (day * msPerDay + ms)
      | None => None
      end
  | None => None
  end.

Definition monthNames : list string :=
  ["Jan"; "Feb"; "Mar"; "Apr"; "May"; "Jun";
   "Jul"; "Aug"; "Sep"; "Oct"; "Nov"; "Dec"].

Fixpoint indexOf (x : string) (l : list string) (i : Z) : option Z :=
  match l with
  | [] => None
  | y :: rest => if String.eqb x y then Some i else indexOf x rest (i + 1)
  end.

(** A month name and a day of month, as [toLocaleDateString] writes them
    below: [(month, day)]. *)
Definition parseMonthDay (s : string) : option (Z * Z) :=
  match s with
  | String a (String b (String c (String " " rest))) =>
      match indexOf (String a (String b (String c EmptyString))) monthNames 1,
            rest with
      | Some m, String d1 EmptyString =>
          match digitOf 10 d1 with
          | Some d => if 1 <=? d then Some (m, d) else None
          | None => None
          end
      | Some m, String d1 (String d2 EmptyString) =>
          match digits2 d1 d2 with
          | Some d => if (1 <=? d) && (d <=? 31) then Some (m, d) else None
          | None => None
          end
      | _, _ => None
      end
  | _ => None
  end.

Section Zone.
(** The offset of local time from UTC in minutes (positive east of
    Greenwich).  It is one number: the section describes a time zone whose
    offset is the same at every instant (UTC, or a zone without
    daylight-saving changes).  In a zone that changes its offset, [setDate]
    can move a date across a change, where the two sides of it see a
    different offset; such zones are outside this section. *)
Variable tz : Z.

Definition LocalTime (t : Z) : Z := t + tz * 60000.
Definition UTC (local : Z) : Z := local - tz * 60000.

(** [new Date(s).getTime()].  The forms covered are the ones the program
    itself writes: the two ISO forms, and a month name with a day of
    month, which V8's fallback parser reads as local midnight of that day
    in the year 2001.  Any other string is taken as unparsable. *)
Definition dateParse (s : string) : number :=
  match parseIso s with
  | Some t => Num t
  | None =>
      match parseMonthDay s with
      | Some (m, d) => Num (UTC ((daysFromCivil 2001 m 1 + d - 1) * msPerDay))
      | None => NaN
      end
  end.

(** [d.getDay()] and [d.getDate()], in local time. *)
Definition getDay (d : number) : number :=
  match d with
  | Num t => Num (WeekDay (Day (LocalTime t)))
  | NaN => NaN
  end.

Definition getDate (d : number) : number :=
  match d with
  | Num t => let '(_, _, dom) := civilFromDays (Day (LocalTime t)) in Num dom
  | NaN => NaN
  end.

(** [d.setDate(dt)]: the time value after the day of month of [d], in
    local time, is set to [dt]; the time of day is kept. *)
Definition setDate (d : number) (dt : number) : number :=
  match d, dt with
  | Num t, Num n =>
      let local := LocalTime t in
      let '(y, m, _) := civilFromDays (Day local) in
      Num (UTC ((daysFromCivil y m 1 + n - 1) * msPerDay
                + TimeWithinDay local))
  | _, _ => NaN
  end.

(** [d.toLocaleDateString('en-US', { month: 'short', day: 'numeric' })] *)
Definition toLocaleDateString (d : number) : string :=
  match d with
  | Num t =>
      let '(_, m, dom) := civilFromDays (Day (LocalTime t)) in
      nth (Z.to_nat (m - 1)) monthNames "" ++ " " ++ toString dom
  | NaN => "Invalid Date"
  end.
End Zone.

End Js.

Notation "a +j b" := (Js.add a b) (at level 50, left associativity).
Notation "a -j b" := (Js.sub a b) (at level 50, left associativity).
Notation "a *j b" := (Js.mul a b) (at level 40, left associativity).

(* ===================================================================== *)
(** * src/app/page.tsx *)
(* ===================================================================== *)

Module Page.

(** The fields of [Project] carry the prefix [p_]: [TimeEntry] has an [id]
    of its own. *)
Record Project : Type := mkProject {
  p_id : string;
  p_name : string;
  p_color : string;
  p_createdAt : string
}.

Record TimeEntry : Type := mkTimeEntry {
  id : string;
  projectId : string;
  projectName : string;
  startTime : string;
  endTime : option string;
  duration : Js.number;
  date : string;
  isRunning : bool;
  editedDuration : option Js.number
}.

(** The three [useState] cells of [Home]. *)
Record State : Type := mkState {
  projects : list Project;
  timeEntries : list TimeEntry;
  currentEntry : option TimeEntry
}.

(** [{ ...p, name, color }] *)
Definition withNameColor (p : Project) (name color : string) : Project :=
  mkProject (p_id p) name color (p_createdAt p).

(** [{ ...entry, projectName: name }] *)
Definition withProjectName (e : TimeEntry) (name : string) : TimeEntry :=
  mkTimeEntry (id e) (projectId e) name (startTime e) (endTime e)
              (duration e) (date e) (isRunning e) (editedDuration e).

(** The function [updateProject] maps over the durable entries. *)
Definition renamed (pid name : string) (entry : TimeEntry) : TimeEntry :=
  if String.eqb (projectId entry) pid then withProjectName entry name
  else entry.

Definition updateProject (pid name color : string) (st : State) : State :=
  mkState
    (map (fun p =>
            if String.eqb (p_id p) pid then withNameColor p name color else p)
         (projects st))
    (map (renamed pid name) (timeEntries st))
    (currentEntry st).

Definition deleteProject (pid : string) (st : State) : State :=
  mkState
    (filter (fun p => negb (String.eqb (p_id p) pid)) (projects st))
    (timeEntries st)
    (currentEntry st).

Definition addProject (nowId nowCreated : Z) (name color : string)
    (st : State) : State :=
  let newProject :=
    mkProject (Js.toString nowId) name color (Js.isoString nowCreated) in
  mkState (projects st ++ [newProject])%list (timeEntries st)
          (currentEntry st).

(** [startTimer] reads the clock three times: for the id, for the start
    time and for the calendar day. *)
Definition startTimer (nowId nowStart nowDate : Z) (pid : string)
    (st : State) : State :=
  match find (fun p => String.eqb (p_id p) pid) (projects st) with
  | None => st
  | Some project =>
      let newEntry :=
        mkTimeEntry (Js.toString nowId) pid (p_name project)
                    (Js.isoString nowStart) None (Js.Num 0)
                    (Js.beforeT (Js.isoString nowDate)) true None in
      mkState (projects st) (timeEntries st) (Some newEntry)
  end.

(** [{ ...currentEntry, endTime, duration, isRunning: false }] *)
Definition stopped (e : TimeEntry) (endTime : string) (duration : Js.number)
    : TimeEntry :=
  mkTimeEntry (id e) (projectId e) (projectName e) (startTime e)
              (Some endTime) duration (date e) false (editedDuration e).

Section Zone.
Variable tz : Z.

Definition stopTimer (now : Z) (st : State) : State :=
  match currentEntry st with
  | None => st
  | Some cur =>
      let endTime := Js.isoString now in
      let duration :=
        Js.floorDiv
          (Js.dateParse tz endTime -j Js.dateParse tz (startTime cur))
          1000 in
      mkState (projects st) (timeEntries st)
              (Some (stopped cur endTime duration))
  end.
End Zone.

Definition saveEntry (entry : TimeEntry) (st : State) : State :=
  mkState (projects st) (timeEntries st ++ [entry])%list None.

(** [setCurrentEntry], handed to the timer as [onUpdateEntry]. *)
Definition setCurrentEntry (entry : TimeEntry) (st : State) : State :=
  mkState (projects st) (timeEntries st) (Some entry).

(** [{ ...entry, editedDuration: n }], the one partial update the history
    component asks for. *)
Definition withEditedDuration (e : TimeEntry) (n : Js.number) : TimeEntry :=
  mkTimeEntry (id e) (projectId e) (projectName e) (startTime e) (endTime e)
              (duration e) (date e) (isRunning e) (Some n).

(** [updateTimeEntry(id, { editedDuration: n })] *)
Definition updateTimeEntry (eid : string) (n : Js.number) (st : State)
    : State :=
  mkState (projects st)
          (map (fun entry =>
                  if String.eqb (id entry) eid then withEditedDuration entry n
                  else entry)
               (timeEntries st))
          (currentEntry st).

Definition deleteTimeEntry (eid : string) (st : State) : State :=
  mkState (projects st)
          (filter (fun entry => negb (String.eqb (id entry) eid))
                  (timeEntries st))
          (currentEntry st).

(** The test of the filter of "Today's Total", with the clock reading of
    this call: [entry.date === new Date().toISOString().split('T')[0]]. *)
Definition isToday (now : Z) (entry : TimeEntry) : bool :=
  String.eqb (date entry) (Js.beforeT (Js.isoString now)).

End Page.

(* ===================================================================== *)
(** * The timer component *)
(* ===================================================================== *)

Module Timer.
Import Page.

(** The three states of the session, as the component tells them apart:
    no current entry, [currentEntry.isRunning], and
    [currentEntry && !currentEntry.isRunning]. *)
Inductive session : Type := Idle | Running | Stopped.

Definition sessionOf (st : State) : session :=
  match currentEntry st with
  | None => Idle
  | Some e => if isRunning e then Running else Stopped
  end.

(** [currentEntry?.isRunning], as a condition. *)
Definition running (st : State) : bool :=
  match currentEntry st with
  | Some e => isRunning e
  | None => false
  end.

Definition handleStart (nowId nowStart nowDate : Z) (selectedProject : string)
    (st : State) : State :=
  if Js.nonEmpty selectedProject && negb (running st)
  then startTimer nowId nowStart nowDate selectedProject st
  else st.

Definition handleStop (tz now : Z) (st : State) : State :=
  if running st then stopTimer tz now st else st.

Definition handleSave (st : State) : State :=
  match currentEntry st with
  | Some e => if negb (isRunning e) then saveEntry e st else st
  | None => st
  end.

(** [totalSeconds] of [handleEditTime], from the three text fields of the
    edit dialog. *)
Definition editTotalSeconds (editHours editMinutes editSeconds : string)
    : Js.number :=
  Js.parseInt editHours *j Js.Num 3600
  +j Js.parseInt editMinutes *j Js.Num 60
  +j Js.parseInt editSeconds.

Definition handleEditTime (editHours editMinutes editSeconds : string)
    (st : State) : State :=
  match currentEntry st with
  | Some cur =>
      setCurrentEntry
        (withEditedDuration cur
           (editTotalSeconds editHours editMinutes editSeconds))
        st
  | None => st
  end.

(** The time shown for a stopped entry: [editedDuration || duration]. *)
Definition shownTime (e : TimeEntry) : Js.number :=
  Js.orElse (editedDuration e) (duration e).

Definition formatTime (seconds : Js.number) : string :=
  let hours := Js.floorDiv seconds 3600 in
  let minutes := Js.floorDiv (Js.remBy seconds 3600) 60 in
  let remainingSeconds := Js.remBy seconds 60 in
  Js.padStart2 (Js.numberToString hours) ++ ":"
  ++ Js.padStart2 (Js.numberToString minutes) ++ ":"
  ++ Js.padStart2 (Js.numberToString remainingSeconds).

(** [elapsed] of the one-second interval, for the running entry [cur] at
    the clock reading [now]. *)
Definition elapsed (tz now : Z) (cur : TimeEntry) : Js.number :=
  Js.floorDiv (Js.Num now -j Js.dateParse tz (startTime cur)) 1000.

(** The three fields [openEditDialog] fills:
    [(editHours, editMinutes, editSeconds)]. *)
Definition openEditDialog (st : State) : string * string * string :=
  let time :=
    match currentEntry st with
    | Some cur =>
        let shown := Js.orElse (editedDuration cur) (duration cur) in
        if Js.truthy shown then shown else Js.Num 0
    | None => Js.Num 0
    end in
  let hours := Js.floorDiv time 3600 in
  let minutes := Js.floorDiv (Js.remBy time 3600) 60 in
  let seconds := Js.remBy time 60 in
  (Js.numberToString hours, Js.numberToString minutes,
   Js.numberToString seconds).

End Timer.

(* ===================================================================== *)
(** * The history component *)
(* ===================================================================== *)

Module History.
Import Page.

Definition itemsPerPage : Z := 10.

Section Zone.
Variable tz : Z.

(** The comparator of the sort, newest day first. *)
Definition byDateDesc (a b : TimeEntry) : Js.number :=
  Js.dateParse tz (date b) -j Js.dateParse tz (date a).

Definition filteredEntries (entries : list TimeEntry)
    (filterProject filterDateFrom filterDateTo : string) : list TimeEntry :=
  let filtered := entries in
  let filtered :=
    if negb (String.eqb filterProject "all")
    then filter (fun entry => String.eqb (projectId entry) filterProject)
                filtered
    else filtered in
  let filtered :=
    if Js.nonEmpty filterDateFrom
    then filter (fun entry => String.leb filterDateFrom (date entry))
                filtered
    else filtered in
  let filtered :=
    if Js.nonEmpty filterDateTo
    then filter (fun entry => String.leb (date entry) filterDateTo) filtered
    else filtered in
  Js.sort byDateDesc filtered.
End Zone.

(** The time value of the date of an entry, where the date parses. *)
Definition timeOf (tz : Z) (entry : TimeEntry) : option Z :=
  match Js.dateParse tz (date entry) with
  | Js.Num t => Some t
  | Js.NaN => None
  end.

(** [a] may stand before [b] in a list ordered newest first. *)
Definition notOlder (tz : Z) (a b : TimeEntry) : Prop :=
  match timeOf tz a, timeOf tz b with
  | Some ta, Some tb => tb <= ta
  | _, _ => False
  end.

(** The condition an entry passes to be listed: the three filters of
    [filteredEntries] with their guards, in one. *)
Definition passes (filterProject filterDateFrom filterDateTo : string)
    (entry : TimeEntry) : bool :=
  (String.eqb filterProject "all"
   || String.eqb (projectId entry) filterProject)
  && (negb (Js.nonEmpty filterDateFrom)
      || String.leb filterDateFrom (date entry))
  && (negb (Js.nonEmpty filterDateTo)
      || String.leb (date entry) filterDateTo).

(** [totalSeconds] of [totalHours]: the sum the component divides by 3600
    to show hours. *)
Definition totalSeconds (filtered : list TimeEntry) : Js.number :=
  fold_left
    (fun total entry =>
       total +j Js.orElse (editedDuration entry) (duration entry))
    filtered (Js.Num 0).

Definition paginatedEntries (filtered : list TimeEntry) (currentPage : Z)
    : list TimeEntry :=
  let start := (currentPage - 1) * itemsPerPage in
  let stop := start + itemsPerPage in
  Js.slice start stop filtered.

Definition totalPages (filtered : list TimeEntry) : Z :=
  Js.ceilDiv (Z.of_nat (List.length filtered)) itemsPerPage.

(** The page numbers [1 .. n], which the Previous and Next buttons walk. *)
Definition pageNumbers (n : Z) : list Z :=
  map (fun i => Z.of_nat i + 1) (seq 0 (Z.to_nat n)).

(** [totalSeconds] of [handleUpdateEntry], from the three text fields of
    the edit dialog. *)
Definition editTotalSeconds (editHours editMinutes editSeconds : string)
    : Js.number :=
  Js.parseInt editHours *j Js.Num 3600
  +j Js.parseInt editMinutes *j Js.Num 60
  +j Js.parseInt editSeconds.

Definition handleUpdateEntry (editingEntry : option TimeEntry)
    (editHours editMinutes editSeconds : string) (st : State) : State :=
  match editingEntry with
  | None => st
  | Some e =>
      updateTimeEntry (id e)
        (editTotalSeconds editHours editMinutes editSeconds) st
  end.

(** The three fields [handleEditEntry] fills for [entry]. *)
Definition handleEditEntry (entry : TimeEntry) : string * string * string :=
  let time := Js.orElse (editedDuration entry) (duration entry) in
  let hours := Js.floorDiv time 3600 in
  let minutes := Js.floorDiv (Js.remBy time 3600) 60 in
  let seconds := Js.remBy time 60 in
  (Js.numberToString hours, Js.numberToString minutes,
   Js.numberToString seconds).

(** [handleDeleteEntry], with the answer to [window.confirm]. *)
Definition handleDeleteEntry (confirmed : bool) (eid : string) (st : State)
    : State :=
  if confirmed then deleteTimeEntry eid st else st.

Definition getProjectColor (projects : list Project) (pid : string) : string :=
  match find (fun p => String.eqb (p_id p) pid) projects with
  | Some project =>
      if Js.nonEmpty (p_color project) then p_color project else "#6B7280"
  | None => "#6B7280"
  end.

(** "Showing [showingFrom] to [showingTo] of [n] entries". *)
Definition showingFrom (currentPage : Z) : Z :=
  (currentPage - 1) * itemsPerPage + 1.

Definition showingTo (filtered : list TimeEntry) (currentPage : Z) : Z :=
  Z.min (currentPage * itemsPerPage) (Z.of_nat (List.length filtered)).

(** The Previous and Next buttons, disabled on the first and on the last
    page. *)
Definition previousPage (currentPage : Z) : Z :=
  if currentPage =? 1 then currentPage else currentPage - 1.

Definition nextPage (filtered : list TimeEntry) (currentPage : Z) : Z :=
  if currentPage =? totalPages filtered then currentPage
  else currentPage + 1.

(** The numbered buttons: pages [1 .. min 5 totalPages]. *)
Definition pageButtons (filtered : list TimeEntry) : list Z :=
  pageNumbers (Z.min 5 (totalPages filtered)).

End History.

(* ===================================================================== *)
(** * The analytics component *)
(* ===================================================================== *)

Module Charts.
Import Page.

(** A JS object used as a map from (non-numeric) string keys to numbers:
    the keys stay in the order of their first insertion. *)
Definition dict : Type := list (string * Js.number).

Fixpoint get (k : string) (m : dict) : option Js.number :=
  match m with
  | [] => None
  | (k', v) :: rest => if String.eqb k' k then Some v else get k rest
  end.

Fixpoint set (k : string) (v : Js.number) (m : dict) : dict :=
  match m with
  | [] => [(k, v)]
  | (k', v') :: rest =>
      if String.eqb k' k then (k, v) :: rest else (k', v') :: set k v rest
  end.

(** [(entry.editedDuration || entry.duration) / 3600], by its numerator. *)
Definition hours (entry : TimeEntry) : Js.number :=
  Js.orElse (editedDuration entry) (duration entry).

(** [totalSeconds]: the sum [totalHours] divides by 3600. *)
Definition totalSeconds (entries : list TimeEntry) : Js.number :=
  fold_left
    (fun total entry =>
       total +j Js.orElse (editedDuration entry) (duration entry))
    entries (Js.Num 0).

Section Zone.
Variable tz : Z.

(** The key of the week of an entry; [None] when [toISOString] throws. *)
Definition weekKey (entry : TimeEntry) : option string :=
  let date := Js.dateParse tz (Page.date entry) in
  let startOfWeek :=
    Js.setDate tz date (Js.getDate tz date -j Js.getDay tz date) in
  option_map Js.beforeT (Js.toISOString startOfWeek).

(** The [forEach] loop over the entries, from the map built so far. *)
Fixpoint weeklyMap (entries : list TimeEntry) (acc : dict) : option dict :=
  match entries with
  | [] => Some acc
  | entry :: rest =>
      match weekKey entry with
      | None => None
      | Some k =>
          weeklyMap rest
            (set k (Js.orElse (get k acc) (Js.Num 0) +j hours entry) acc)
      end
  end.

(** The comparator of the sort of the weekly series: it reads the label
    of each row back as a date. *)
Definition byLabel (a b : string * Js.number) : Js.number :=
  Js.dateParse tz (fst a) -j Js.dateParse tz (fst b).

(** The weekly series: rows [(week, hours)]. *)
Definition weeklyData (entries : list TimeEntry)
    : option (list (string * Js.number)) :=
  match weeklyMap entries [] with
  | None => None
  | Some m =>
      Some (Js.sliceFrom (-8)
              (Js.sort byLabel
                 (map (fun '(week, h) =>
                         (Js.toLocaleDateString tz (Js.dateParse tz week), h))
                      m)))
  end.
End Zone.

(** The fold of [totalSeconds], from a given start. *)
Definition sumFrom (start : Js.number) (entries : list TimeEntry)
    : Js.number :=
  fold_left
    (fun total entry =>
       total +j Js.orElse (editedDuration entry) (duration entry))
    entries start.

(** Whether the key of the week of [entry] is [k]. *)
Definition inWeek (tz : Z) (k : string) (entry : TimeEntry) : bool :=
  match weekKey tz entry with
  | Some k' => String.eqb k' k
  | None => false
  end.

End Charts.

(* ===================================================================== *)
(** * src/components/ProjectSelector.tsx *)
(* ===================================================================== *)

Module ProjectSelector.
Import Page.

(** The [useState] cells of the component. *)
Record Local : Type := mkLocal {
  isAddingProject : bool;
  editingProject : option Project;
  newProjectName : string;
  newProjectColor : string;
  editProjectName : string;
  editProjectColor : string
}.

Definition defaultColor : string := "#3B82F6".

Definition handleAddProject (nowId nowCreated : Z) (ls : Local) (st : State)
    : Local * State :=
  if Js.nonEmpty (Js.trim (newProjectName ls))
  then (mkLocal false (editingProject ls) "" defaultColor
                (editProjectName ls) (editProjectColor ls),
        addProject nowId nowCreated (Js.trim (newProjectName ls))
                   (newProjectColor ls) st)
  else (ls, st).

Definition handleEditProject (project : Project) (ls : Local) : Local :=
  mkLocal (isAddingProject ls) (Some project) (newProjectName ls)
          (newProjectColor ls) (p_name project) (p_color project).

Definition handleUpdateProject (ls : Local) (st : State) : Local * State :=
  match editingProject ls with
  | Some project =>
      if Js.nonEmpty (Js.trim (editProjectName ls))
      then (mkLocal (isAddingProject ls) None (newProjectName ls)
                    (newProjectColor ls) "" "",
            updateProject (p_id project) (Js.trim (editProjectName ls))
                          (editProjectColor ls) st)
      else (ls, st)
  | None => (ls, st)
  end.

(** [handleDeleteProject], with the answer to [window.confirm]. *)
Definition handleDeleteProject (confirmed : bool) (pid : string) (st : State)
    : State :=
  if confirmed then deleteProject pid st else st.

End ProjectSelector.

(* ===================================================================== *)
(** * The events of the user interface *)
(* ===================================================================== *)

Module App.
Import Page.

(** The buttons of the rendered page, each with what its handler reads at
    the time of the click: clock readings, the contents of the input
    fields, the answer to a confirmation. *)
Inductive action : Type :=
| Start (nowId nowStart nowDate : Z) (selectedProject : string)
| Stop (now : Z)
| Save
| EditTime (editHours editMinutes editSeconds : string)
| UpdateEntry (editingEntry : TimeEntry)
              (editHours editMinutes editSeconds : string)
| DeleteEntry (confirmed : bool) (eid : string)
| AddProject (nowId nowCreated : Z) (ls : ProjectSelector.Local)
| UpdateProject (ls : ProjectSelector.Local)
| DeleteProject (confirmed : bool) (pid : string).

(** One click.  The edit dialog of the timer, with its "Update Time"
    button, is rendered only for a stopped entry
    ([currentEntry && !currentEntry.isRunning]); the other handlers carry
    their guards themselves. *)
Definition step (tz : Z) (a : action) (st : State) : State :=
  match a with
  | Start nowId nowStart nowDate selectedProject =>
      Timer.handleStart nowId nowStart nowDate selectedProject st
  | Stop now => Timer.handleStop tz now st
  | Save => Timer.handleSave st
  | EditTime h m s =>
      match Timer.sessionOf st with
      | Timer.Stopped => Timer.handleEditTime h m s st
      | _ => st
      end
  | UpdateEntry editing h m s =>
      History.handleUpdateEntry (Some editing) h m s st
  | DeleteEntry confirmed eid => History.handleDeleteEntry confirmed eid st
  | AddProject nowId nowCreated ls =>
      snd (ProjectSelector.handleAddProject nowId nowCreated ls st)
  | UpdateProject ls => snd (ProjectSelector.handleUpdateProject ls st)
  | DeleteProject confirmed pid =>
      ProjectSelector.handleDeleteProject confirmed pid st
  end.

Definition run (tz : Z) (actions : list action) (st : State) : State :=
  fold_left (fun st a => step tz a st) actions st.

(** A state without contradictions: no running entry is in the durable
    store and every stored entry has an end time; a staged entry that is
    stopped has an end time; a running entry has no end time, no edited
    duration and the duration 0; and the name of every project is not
    empty and has no white space around it. *)
Definition wellFormed (st : State) : Prop :=
  (forall e, In e (timeEntries st) ->
             isRunning e = false /\ endTime e <> None)
  /\ (forall cur, currentEntry st = Some cur ->
                  if isRunning cur
                  then endTime cur = None /\ editedDuration cur = None
                       /\ duration cur = Js.Num 0
                  else endTime cur <> None)
  /\ (forall p, In p (projects st) ->
                p_name p <> "" /\ Js.trim (p_name p) = p_name p).

End App.

(* ===================================================================== *)
(** * Sample data *)
(* ===================================================================== *)

Module Sample.
Import Page.

(** A durable entry of project ["1"] ("Design") on a given day. *)
Definition entry (day : string) (seconds : Z) (edited : option Js.number)
    : TimeEntry :=
  mkTimeEntry day "1" "Design" (day ++ "T09:00:00.000Z")
              (Some (day ++ "T10:00:00.000Z")) (Js.Num seconds) day false
              edited.

(** One project, no durable entry, and a stopped entry still staged. *)
Definition state : State :=
  mkState
    [mkProject "1" "Design" "#3B82F6" "2024-01-01T00:00:00.000Z"]
    []
    (Some (mkTimeEntry "1704067200000" "1" "Design"
             "2024-01-01T00:00:00.000Z" (Some "2024-01-01T00:00:10.000Z")
             (Js.Num 10) "2024-01-01" false None)).

(** The project ["2"] has been deleted; one durable entry still refers to
    it. *)
Definition dangling : State :=
  deleteProject "2"
    (mkState
       [mkProject "1" "Design" "#3B82F6" "2024-01-01T00:00:00.000Z";
        mkProject "2" "Research" "#10B981" "2024-01-01T00:00:00.000Z"]
       [mkTimeEntry "10" "2" "Research" "2024-01-02T09:00:00.000Z"
                    (Some "2024-01-02T10:00:00.000Z") (Js.Num 3600)
                    "2024-01-02" false None]
       None).

(** One entry in each of nine consecutive weeks, across a new year; every
    day is a Sunday. *)
Definition nineWeeks : list TimeEntry :=
  map (fun day => entry day 3600 None)
      ["2023-11-12"; "2023-11-19"; "2023-11-26"; "2023-12-03"; "2023-12-10";
       "2023-12-17"; "2023-12-24"; "2023-12-31"; "2024-01-07"].

(** A session of the timer: 90 seconds are measured, the staged entry is
    edited to 0 h 0 min 0 s, and saved. *)
Definition editedToZero : State :=
  Timer.handleSave
    (Timer.handleEditTime "0" "0" "0"
       (Timer.handleStop 0 1704067290000
          (Timer.handleStart 1704067200000 1704067200000 1704067200000 "1"
             state))).

End Sample.

(* ===================================================================== *)
(** * The rule of the specification for durations *)
(* ===================================================================== *)

(** This definition follows the words of the specification, to be compared
    with [editedDuration || duration] of the code: the edited duration when
    the field is present, the measured duration otherwise. *)
Definition effectiveDuration (e : Page.TimeEntry) : Js.number :=
  match Page.editedDuration e with
  | Some n => n
  | None => Page.duration e
  end.

(* ===================================================================== *)
(** * Properties of the runtime fragment *)
(* ===================================================================== *)

(** ** The calendar: [daysFromCivil] inverts [civilFromDays] *)

Lemma allFrom_spec (f : Z -> bool) (n : nat) (z : Z) :
  Js.allFrom n z f = true ->
  forall x, z <= x < z + Z.of_nat n -> f x = true.
Proof.
  revert z. induction n as [|n IH]; intros z H x Hx; [lia|].
  simpl in H. apply andb_true_iff in H as [H0 H1].
  destruct (Z.eq_dec x z) as [->|Hne]; [exact H0|].
  apply (IH (z + 1) H1). lia.
Qed.

Lemma eraG_mono (a b : Z) : 0 <= a <= b -> Js.eraG a <= Js.eraG b.
Proof.
  intros H. unfold Js.eraG.
  replace 146096 with (36524 * 4) by reflexivity.
  rewrite <- !Z.div_div by lia.
  Z.to_euclidean_division_equations. lia.
Qed.

Lemma years_checked : Js.allFrom 400 0 Js.yearCheck = true.
Proof. vm_compute. reflexivity. Qed.

Lemma year_exists (doe : Z) :
  0 <= doe < 146097 ->
  exists Y, 0 <= Y < 400 /\ Js.yearStart Y <= doe <= Js.yearEnd Y.
Proof.
  intros H.
  assert (K : forall n : nat,
             (n <= 399)%nat -> doe < Js.yearStart (Z.of_nat n) ->
             exists Y, 0 <= Y < Z.of_nat n
                       /\ Js.yearStart Y <= doe <= Js.yearEnd Y).
  { induction n as [|n IH]; intros Hn Hd.
    - unfold Js.yearStart in Hd. simpl in Hd. lia.
    - destruct (Z_lt_le_dec doe (Js.yearStart (Z.of_nat n))) as [L|L].
      + destruct (IH ltac:(lia) L) as (Y & HY & HB). exists Y.
        split; [lia|exact HB].
      + exists (Z.of_nat n). split; [lia|]. split; [exact L|].
        unfold Js.yearEnd.
        destruct (Z.eqb_spec (Z.of_nat n) 399) as [E|E]; [lia|].
        replace (Z.of_nat n + 1) with (Z.of_nat (S n)) by lia. lia. }
  destruct (Z_lt_le_dec doe (Js.yearStart 399)) as [L|L].
  - destruct (K 399%nat ltac:(lia) L) as (Y & HY & HB). exists Y.
    split; [lia|exact HB].
  - exists 399. split; [lia|]. split; [exact L|]. unfold Js.yearEnd. simpl. lia.
Qed.

Lemma yearOfEra_correct (doe Y : Z) :
  0 <= Y < 400 -> Js.yearStart Y <= doe <= Js.yearEnd Y ->
  Js.eraG doe / 365 = Y /\ 0 <= doe - Js.yearStart Y <= 365.
Proof.
  intros HY HB.
  pose proof (allFrom_spec _ _ _ years_checked Y ltac:(lia)) as C.
  unfold Js.yearCheck in C. rewrite !andb_true_iff in C.
  destruct C as [[[C1 C2] C3] C4].
  apply Z.eqb_eq in C1, C2. apply Z.leb_le in C3, C4.
  assert (0 <= Js.yearStart Y)
    by (unfold Js.yearStart; Z.to_euclidean_division_equations; lia).
  pose proof (eraG_mono (Js.yearStart Y) doe ltac:(lia)) as M1.
  pose proof (eraG_mono doe (Js.yearEnd Y) ltac:(lia)) as M2.
  pose proof (Z.div_le_mono _ _ 365 ltac:(lia) M1) as D1.
  pose proof (Z.div_le_mono _ _ 365 ltac:(lia) M2) as D2.
  split; lia.
Qed.

Lemma monthDays_checked : Js.allFrom 366 0 Js.monthDayCheck = true.
Proof. vm_compute. reflexivity. Qed.

Lemma civil_roundtrip (z : Z) :
  let '(y, m, d) := Js.civilFromDays z in
  1 <= m <= 12 /\ 1 <= d <= 31 /\ Js.daysFromCivil y m d = z.
Proof.
  unfold Js.civilFromDays. cbv zeta.
  remember ((z + 719468) / 146097) as era eqn:Eera.
  remember ((z + 719468) mod 146097) as doe eqn:Edoe.
  assert (Hdoe : 0 <= doe < 146097) by (subst doe; apply Z.mod_pos_bound; lia).
  assert (Hz : z + 719468 = 146097 * era + doe)
    by (subst era doe; apply Z.div_mod; lia).
  clear Eera Edoe.
  destruct (year_exists doe Hdoe) as (Y & HY & HB).
  destruct (yearOfEra_correct doe Y HY HB) as [EY Hdoy].
  fold (Js.eraG doe). rewrite EY. fold (Js.yearStart Y).
  remember (doe - Js.yearStart Y) as doy eqn:Edoy.
  pose proof (allFrom_spec _ _ _ monthDays_checked doy ltac:(lia)) as C.
  unfold Js.monthDayCheck in C. cbv zeta in C. rewrite !andb_true_iff in C.
  destruct C as [[[C1 C2] C3] C4].
  apply Z.leb_le in C1, C2, C3, C4.
  remember ((5 * doy + 2) / 153) as mp eqn:Emp.
  remember ((153 * mp + 2) / 5) as q eqn:Eq.
  assert (EDiv : (Y + era * 400) / 400 = era)
    by (symmetry; apply (Z.div_unique _ _ _ Y); lia).
  assert (EMod : (Y + era * 400) mod 400 = Y)
    by (symmetry; apply (Z.mod_unique _ _ era Y); lia).
  unfold Js.daysFromCivil.
  destruct (Z.ltb_spec mp 10) as [L|L].
  - destruct (Z.leb_spec (mp + 3) 2) as [L2|L2]; [lia|].
    destruct (Z.ltb_spec 2 (mp + 3)) as [L3|L3]; [|lia].
    rewrite Z.add_0_r, EDiv, EMod.
    replace (mp + 3 - 3) with mp by lia. rewrite <- Eq.
    unfold Js.yearStart in Edoy. lia.
  - destruct (Z.leb_spec (mp - 9) 2) as [L2|L2]; [|lia].
    destruct (Z.ltb_spec 2 (mp - 9)) as [L3|L3]; [lia|].
    replace (Y + era * 400 + 1 - 1) with (Y + era * 400) by lia.
    rewrite EDiv, EMod.
    replace (mp - 9 + 9) with mp by lia. rewrite <- Eq.
    unfold Js.yearStart in Edoy. lia.
Qed.

Lemma daysFromCivil_year_bounds (y m d : Z) :
  1 <= m <= 12 -> 1 <= d <= 31 ->
  -719528 <= Js.daysFromCivil y m d <= 2932896 -> 0 <= y <= 9999.
Proof.
  unfold Js.daysFromCivil. intros Hm Hd.
  destruct (Z.leb_spec m 2), (Z.ltb_spec 2 m); try lia;
    Z.to_euclidean_division_equations; lia.
Qed.

Lemma digitOf_digitChar (d : Z) :
  0 <= d <= 9 -> Js.digitOf 10 (Js.digitChar d) = Some d.
Proof.
  intros H.
  assert (K : d = 0 \/ d = 1 \/ d = 2 \/ d = 3 \/ d = 4 \/ d = 5 \/ d = 6
              \/ d = 7 \/ d = 8 \/ d = 9) by lia.
  repeat (destruct K as [->|K]; [reflexivity|]). now subst.
Qed.

Lemma digits2_padded (n : Z) :
  0 <= n < 100 ->
  Js.digits2 (Js.digitChar (n / 10 mod 10)) (Js.digitChar (n mod 10)) = Some n.
Proof.
  intros H. unfold Js.digits2.
  rewrite !digitOf_digitChar by (Z.to_euclidean_division_equations; lia).
  f_equal. Z.to_euclidean_division_equations; lia.
Qed.

Lemma digits3_padded (n : Z) :
  0 <= n < 1000 ->
  Js.digits3 (Js.digitChar (n / 10 / 10 mod 10))
             (Js.digitChar (n / 10 mod 10)) (Js.digitChar (n mod 10)) = Some n.
Proof.
  intros H. unfold Js.digits3, Js.digits2.
  rewrite !digitOf_digitChar by (Z.to_euclidean_division_equations; lia).
  f_equal. Z.to_euclidean_division_equations; lia.
Qed.

Lemma digits4_padded (n : Z) :
  0 <= n < 10000 ->
  Js.digits4 (Js.digitChar (n / 10 / 10 / 10 mod 10))
             (Js.digitChar (n / 10 / 10 mod 10))
             (Js.digitChar (n / 10 mod 10)) (Js.digitChar (n mod 10)) = Some n.
Proof.
  intros H. unfold Js.digits4, Js.digits2.
  rewrite !digitOf_digitChar by (Z.to_euclidean_division_equations; lia).
  f_equal. Z.to_euclidean_division_equations; lia.
Qed.

Lemma padded2 (n : Z) :
  Js.padded 2 n
  = String (Js.digitChar (n / 10 mod 10)) (String (Js.digitChar (n mod 10)) "").
Proof. reflexivity. Qed.

Lemma padded3 (n : Z) :
  Js.padded 3 n
  = String (Js.digitChar (n / 10 / 10 mod 10))
      (String (Js.digitChar (n / 10 mod 10))
         (String (Js.digitChar (n mod 10)) "")).
Proof. reflexivity. Qed.

Lemma padded4 (n : Z) :
  Js.padded 4 n
  = String (Js.digitChar (n / 10 / 10 / 10 mod 10))
      (String (Js.digitChar (n / 10 / 10 mod 10))
         (String (Js.digitChar (n / 10 mod 10))
            (String (Js.digitChar (n mod 10)) ""))).
Proof. reflexivity. Qed.

Lemma parseIsoDay_isoDate (day : Z) (rest : string) :
  -719528 <= day <= 2932896 ->
  Js.parseIsoDay (Js.isoDate day ++ rest) = Some (day, rest).
Proof.
  intros Hday. unfold Js.isoDate.
  pose proof (civil_roundtrip day) as R.
  destruct (Js.civilFromDays day) as [[y m] d].
  destruct R as (Hm & Hd & R).
  assert (Hy : 0 <= y <= 9999)
    by (apply (daysFromCivil_year_bounds y m d); lia).
  replace ((0 <=? y) && (y <=? 9999)) with true
    by (symmetry; apply andb_true_iff; split; apply Z.leb_le; lia).
  rewrite padded4, !padded2. cbn [String.append].
  unfold Js.parseIsoDay.
  rewrite digits4_padded, !digits2_padded by lia.
  replace ((1 <=? m) && (m <=? 12) && (1 <=? d) && (d <=? 31)) with true
    by (symmetry; rewrite !andb_true_iff; repeat split; apply Z.leb_le; lia).
  f_equal. f_equal. rewrite <- R. unfold Js.daysFromCivil. lia.
Qed.

Lemma parseIsoTime_time (ms : Z) :
  0 <= ms < 86400000 ->
  Js.parseIsoTime
    ("T" ++ Js.padded 2 (ms / 3600000) ++ ":"
     ++ Js.padded 2 (ms / 60000 mod 60) ++ ":"
     ++ Js.padded 2 (ms / 1000 mod 60) ++ "."
     ++ Js.padded 3 (ms mod 1000) ++ "Z") = Some ms.
Proof.
  intros H. rewrite padded3, !padded2. cbn [String.append].
  unfold Js.parseIsoTime.
  remember (ms / 3600000) as h eqn:Eh.
  remember (ms / 60000 mod 60) as mi eqn:Emi.
  remember (ms / 1000 mod 60) as sec eqn:Esec.
  remember (ms mod 1000) as f eqn:Ef.
  assert (Hh : 0 <= h <= 23)
    by (subst h; Z.to_euclidean_division_equations; lia).
  assert (Hmi : 0 <= mi <= 59)
    by (subst mi; Z.to_euclidean_division_equations; lia).
  assert (Hsec : 0 <= sec <= 59)
    by (subst sec; Z.to_euclidean_division_equations; lia).
  assert (Hf : 0 <= f <= 999)
    by (subst f; Z.to_euclidean_division_equations; lia).
  rewrite !digits2_padded, digits3_padded by lia.
  replace ((h <=? 23) && (mi <=? 59) && (sec <=? 59)) with true
    by (symmetry; rewrite !andb_true_iff; repeat split; apply Z.leb_le; lia).
  cbn [orb]. f_equal. subst h mi sec f.
  Z.to_euclidean_division_equations; lia.
Qed.

Lemma parseIso_isoDate (day : Z) :
  -719528 <= day <= 2932896 ->
  Js.parseIso (Js.isoDate day) = Some (day * Js.msPerDay).
Proof.
  intros H. unfold Js.parseIso.
  replace (Js.isoDate day) with (Js.isoDate day ++ "")
    by (generalize (Js.isoDate day); induction s; simpl; congruence).
  now rewrite parseIsoDay_isoDate.
Qed.

Lemma parseIso_isoString (t : Z) :
  -62167219200000 <= t <= 253402300799999 ->
  Js.parseIso (Js.isoString t) = Some t.
Proof.
  intros Ht. unfold Js.isoString.
  assert (HD : -719528 <= Js.Day t <= 2932896).
  { unfold Js.Day, Js.msPerDay. Z.to_euclidean_division_equations; lia. }
  assert (HT : 0 <= Js.TimeWithinDay t < 86400000).
  { unfold Js.TimeWithinDay, Js.msPerDay. apply Z.mod_pos_bound. lia. }
  assert (HS : Js.Day t * Js.msPerDay + Js.TimeWithinDay t = t).
  { unfold Js.Day, Js.TimeWithinDay, Js.msPerDay.
    rewrite Z.mul_comm. symmetry. apply Z.div_mod. lia. }
  unfold Js.parseIso. rewrite parseIsoDay_isoDate by exact HD.
  pose proof (parseIsoTime_time _ HT) as PT.
  match type of PT with
  | Js.parseIsoTime ?r = _ => remember r as tail eqn:Etail in *
  end.
  destruct tail as [|c tail]; [discriminate Etail|].
  now rewrite PT, HS.
Qed.

Lemma dateParse_isoString (tz t : Z) :
  -62167219200000 <= t <= 253402300799999 ->
  Js.dateParse tz (Js.isoString t) = Js.Num t.
Proof.
  intros Ht. unfold Js.dateParse. now rewrite parseIso_isoString.
Qed.

(* ===================================================================== *)
(** * Properties of the project registry *)
(* ===================================================================== *)

Section Registry.
Import Page.

Lemma updateProject_timeEntries (pid name color : string) (st : State) :
  timeEntries (updateProject pid name color st)
  = map (renamed pid name) (timeEntries st).
Proof. reflexivity. Qed.

Lemma renamed_match (pid name : string) (e : TimeEntry) :
  projectId e = pid -> renamed pid name e = withProjectName e name.
Proof.
  intros H. unfold renamed. now rewrite (proj2 (String.eqb_eq _ _) H).
Qed.

Lemma renamed_other (pid name : string) (e : TimeEntry) :
  projectId e <> pid -> renamed pid name e = e.
Proof.
  intros H. unfold renamed. now rewrite (proj2 (String.eqb_neq _ _) H).
Qed.

Lemma updateProject_projects_absent (pid name color : string)
    (ps : list Project) :
  ~ In pid (map p_id ps) ->
  map (fun p => if String.eqb (p_id p) pid then withNameColor p name color
                else p) ps = ps.
Proof.
  induction ps as [|p ps IH]; simpl; intros H; [reflexivity|].
  destruct (String.eqb_spec (p_id p) pid) as [E|E].
  - exfalso. apply H. now left.
  - f_equal. apply IH. intros K. apply H. now right.
Qed.

Lemma filter_length_remove_one (pid : string) (ps : list Project) :
  NoDup (map p_id ps) -> In pid (map p_id ps) ->
  S (List.length (filter (fun p => negb (String.eqb (p_id p) pid)) ps))
  = List.length ps.
Proof.
  induction ps as [|p ps IH]; simpl; intros ND HIn; [contradiction|].
  inversion ND as [|x l Hnot ND']; subst.
  destruct (String.eqb_spec (p_id p) pid) as [E|E]; simpl.
  - f_equal. clear IH HIn ND ND'. subst pid.
    induction ps as [|q ps IH]; simpl; [reflexivity|].
    destruct (String.eqb_spec (p_id q) (p_id p)) as [E|E]; simpl.
    + exfalso. apply Hnot. left. exact E.
    + f_equal. apply IH. intros K. apply Hnot. now right.
  - f_equal. apply IH; [exact ND'|].
    destruct HIn as [K|K]; [contradiction|exact K].
Qed.

End Registry.

(** C6.  For an existing project id, [updateProject id name color] keeps
    the number and order of the durable entries; an entry whose
    [projectId] equals [id] gets [projectName = name] and keeps every
    other field, and an entry with another [projectId] is left exactly as
    it was. *)
Theorem updateProject_propagates_name :
  forall (st : Page.State) (pid name color : string),
    In pid (map Page.p_id (Page.projects st)) ->
    List.length (Page.timeEntries (Page.updateProject pid name color st))
    = List.length (Page.timeEntries st)
    /\ forall (i : nat) (e : Page.TimeEntry),
         nth_error (Page.timeEntries st) i = Some e ->
         exists e',
           nth_error (Page.timeEntries (Page.updateProject pid name color st)) i
           = Some e'
           /\ (Page.projectId e = pid ->
               Page.projectName e' = name
               /\ Page.id e' = Page.id e
               /\ Page.projectId e' = Page.projectId e
               /\ Page.startTime e' = Page.startTime e
               /\ Page.endTime e' = Page.endTime e
               /\ Page.duration e' = Page.duration e
               /\ Page.date e' = Page.date e
               /\ Page.isRunning e' = Page.isRunning e
               /\ Page.editedDuration e' = Page.editedDuration e)
           /\ (Page.projectId e <> pid -> e' = e).
Proof.
  intros st pid name color _. rewrite updateProject_timeEntries. split.
  - apply length_map.
  - intros i e Hi. exists (Page.renamed pid name e). split.
    + now rewrite nth_error_map, Hi.
    + split; intros H.
      * rewrite (renamed_match _ _ _ H). simpl. tauto.
      * now apply renamed_other.
Qed.

(** C7, as amended.  For an id that is not in the project list,
    [updateProject id name color] leaves the project list and the current
    session unchanged and leaves every durable entry with another
    [projectId] unchanged; a durable entry whose [projectId] is [id] (a
    dangling reference) still gets [projectName = name].  When no entry
    refers to [id] the whole state is unchanged. *)
Theorem updateProject_absent_id :
  forall (st : Page.State) (pid name color : string),
    ~ In pid (map Page.p_id (Page.projects st)) ->
    Page.projects (Page.updateProject pid name color st) = Page.projects st
    /\ Page.currentEntry (Page.updateProject pid name color st)
       = Page.currentEntry st
    /\ List.length (Page.timeEntries (Page.updateProject pid name color st))
       = List.length (Page.timeEntries st)
    /\ (forall (i : nat) (e : Page.TimeEntry),
          nth_error (Page.timeEntries st) i = Some e ->
          nth_error (Page.timeEntries (Page.updateProject pid name color st)) i
          = Some (if String.eqb (Page.projectId e) pid
                  then Page.withProjectName e name else e))
    /\ ((forall e, In e (Page.timeEntries st) -> Page.projectId e <> pid) ->
        Page.updateProject pid name color st = st).
Proof.
  intros st pid name color Habs.
  assert (HP : Page.projects (Page.updateProject pid name color st)
               = Page.projects st)
    by (simpl; now apply updateProject_projects_absent).
  split; [exact HP|]. split; [reflexivity|].
  rewrite updateProject_timeEntries. split; [apply length_map|]. split.
  - intros i e Hi. now rewrite nth_error_map, Hi.
  - intros Hno. destruct st as [ps es cur]. unfold Page.updateProject.
    simpl in *. f_equal; [exact HP|].
    rewrite <- (map_id es) at 2. apply map_ext_in.
    intros e He. apply renamed_other. now apply Hno.
Qed.

(** C8.  [deleteProject id] leaves the durable entries (their number and
    every field of each, also of those that refer to [id]) and the current
    session unchanged; the projects kept are exactly those with another id,
    and where ids are unique and [id] exists the list shrinks by one. *)
Theorem deleteProject_keeps_entries :
  forall (st : Page.State) (pid : string),
    Page.timeEntries (Page.deleteProject pid st) = Page.timeEntries st
    /\ Page.currentEntry (Page.deleteProject pid st) = Page.currentEntry st
    /\ (forall p, In p (Page.projects (Page.deleteProject pid st))
                  <-> In p (Page.projects st) /\ Page.p_id p <> pid)
    /\ (NoDup (map Page.p_id (Page.projects st)) ->
        In pid (map Page.p_id (Page.projects st)) ->
        S (List.length (Page.projects (Page.deleteProject pid st)))
        = List.length (Page.projects st)).
Proof.
  intros st pid. split; [reflexivity|]. split; [reflexivity|]. split.
  - intros p. simpl. rewrite filter_In, negb_true_iff.
    now rewrite String.eqb_neq.
  - apply filter_length_remove_one.
Qed.

(* ===================================================================== *)
(** * Properties of the session *)
(* ===================================================================== *)

Lemma find_existing_project (pid : string) (ps : list Page.Project) :
  In pid (map Page.p_id ps) ->
  exists p,
    find (fun p => String.eqb (Page.p_id p) pid) ps = Some p
    /\ Page.p_id p = pid.
Proof.
  induction ps as [|q ps IH]; simpl; intros H; [contradiction|].
  destruct (String.eqb_spec (Page.p_id q) pid) as [E|E].
  - exists q. now split.
  - destruct H as [H|H]; [contradiction|]. now apply IH.
Qed.

(** C2.  From every state (whatever its current session), starting the
    timer on an existing project, stopping it and saving the staged entry
    appends exactly one entry to the durable store, the stopped entry of
    that project, and leaves no current entry: the session is idle. *)
Theorem start_stop_save_adds_one_entry :
  forall (tz : Z) (st : Page.State) (nowId nowStart nowDate nowStop : Z)
         (pid : string),
    In pid (map Page.p_id (Page.projects st)) ->
    exists e,
      Page.currentEntry
        (Page.stopTimer tz nowStop
           (Page.startTimer nowId nowStart nowDate pid st)) = Some e
      /\ Page.projectId e = pid
      /\ Page.isRunning e = false
      /\ Timer.handleSave
           (Page.stopTimer tz nowStop
              (Page.startTimer nowId nowStart nowDate pid st))
         = Page.saveEntry e
             (Page.stopTimer tz nowStop
                (Page.startTimer nowId nowStart nowDate pid st))
      /\ Page.timeEntries
           (Timer.handleSave
              (Page.stopTimer tz nowStop
                 (Page.startTimer nowId nowStart nowDate pid st)))
         = (Page.timeEntries st ++ [e])%list
      /\ List.length
           (Page.timeEntries
              (Timer.handleSave
                 (Page.stopTimer tz nowStop
                    (Page.startTimer nowId nowStart nowDate pid st))))
         = S (List.length (Page.timeEntries st))
      /\ Page.currentEntry
           (Timer.handleSave
              (Page.stopTimer tz nowStop
                 (Page.startTimer nowId nowStart nowDate pid st))) = None
      /\ Timer.sessionOf
           (Timer.handleSave
              (Page.stopTimer tz nowStop
                 (Page.startTimer nowId nowStart nowDate pid st)))
         = Timer.Idle.
Proof.
  intros tz st nowId nowStart nowDate nowStop pid Hin.
  destruct (find_existing_project pid _ Hin) as (p & Hfind & _).
  unfold Page.startTimer. rewrite Hfind.
  unfold Page.stopTimer, Timer.handleSave. cbn [Page.currentEntry].
  eexists. split; [reflexivity|].
  cbn [Page.stopped Page.projectId Page.isRunning negb Page.saveEntry
       Page.timeEntries Page.currentEntry Timer.sessionOf].
  repeat split. rewrite length_app. simpl. lia.
Qed.

Lemma start_stop_save_adds_one_entry_witness :
  List.length
    (Page.timeEntries
       (Timer.handleSave
          (Page.stopTimer 0 1704067290000
             (Page.startTimer 1704067200000 1704067200000 1704067200000 "1"
                Sample.state)))) = 1%nat.
Proof.
  destruct (start_stop_save_adds_one_entry 0 Sample.state 1704067200000
              1704067200000 1704067200000 1704067290000 "1")
    as (e & _ & _ & _ & _ & _ & H & _).
  - simpl. left. reflexivity.
  - exact H.
Defined.

(** C3.  When the current entry is running, [stopTimer] at wall-clock time
    [now] replaces it by the same entry with [endTime] the ISO string of
    [now], [duration] the floor of the difference of end and start time in
    seconds, and [isRunning = false]: the session is stopped.  Nothing
    else changes.  With [now] in the years 0000-9999 the end time reads
    back as [now], so the duration is [floor ((now - start) / 1000)] for
    the time value [start] of the stored start time. *)
Theorem stopTimer_stops_running_entry :
  forall (tz now : Z) (st : Page.State) (e : Page.TimeEntry),
    Page.currentEntry st = Some e ->
    Page.isRunning e = true ->
    exists e',
      Page.currentEntry (Page.stopTimer tz now st) = Some e'
      /\ Page.endTime e' = Some (Js.isoString now)
      /\ Page.duration e'
         = Js.floorDiv
             (Js.dateParse tz (Js.isoString now)
              -j Js.dateParse tz (Page.startTime e)) 1000
      /\ Page.isRunning e' = false
      /\ Timer.sessionOf (Page.stopTimer tz now st) = Timer.Stopped
      /\ (Page.id e' = Page.id e
          /\ Page.projectId e' = Page.projectId e
          /\ Page.projectName e' = Page.projectName e
          /\ Page.startTime e' = Page.startTime e
          /\ Page.date e' = Page.date e
          /\ Page.editedDuration e' = Page.editedDuration e)
      /\ Page.projects (Page.stopTimer tz now st) = Page.projects st
      /\ Page.timeEntries (Page.stopTimer tz now st) = Page.timeEntries st
      /\ (-62167219200000 <= now <= 253402300799999 ->
          Js.dateParse tz (Js.isoString now) = Js.Num now
          /\ forall start : Z,
               Js.dateParse tz (Page.startTime e) = Js.Num start ->
               Page.duration e' = Js.Num ((now - start) / 1000)).
Proof.
  intros tz now st e Hcur Hrun.
  unfold Page.stopTimer, Timer.sessionOf. rewrite Hcur.
  eexists. split; [reflexivity|].
  cbn [Page.currentEntry Page.projects Page.timeEntries Page.stopped
       Page.endTime Page.duration Page.isRunning Page.id Page.projectId
       Page.projectName Page.startTime Page.date Page.editedDuration].
  repeat (split; [reflexivity|]).
  split; [repeat split|].
  repeat (split; [reflexivity|]).
  intros Hnow. rewrite (dateParse_isoString tz now Hnow).
  split; [reflexivity|]. intros start Hs. now rewrite Hs.
Qed.

(** The scenario of the specification: a timer started at [T0] and
    stopped 90 seconds later has a staged entry of 90 seconds. *)
Lemma stopTimer_stops_running_entry_witness :
  exists e',
    Page.currentEntry
      (Page.stopTimer 0 1704067290000
         (Page.startTimer 1704067200000 1704067200000 1704067200000 "1"
            Sample.state)) = Some e'
    /\ Page.duration e' = Js.Num 90
    /\ Page.isRunning e' = false.
Proof.
  destruct (stopTimer_stops_running_entry 0 1704067290000
              (Page.startTimer 1704067200000 1704067200000 1704067200000 "1"
                 Sample.state)
              (Page.mkTimeEntry "1704067200000" "1" "Design"
                 "2024-01-01T00:00:00.000Z" None (Js.Num 0) "2024-01-01"
                 true None))
    as (e' & H1 & _ & _ & H4 & _ & _ & _ & _ & H9).
  - reflexivity.
  - reflexivity.
  - exists e'. split; [exact H1|]. split; [|exact H4].
    destruct H9 as [_ H9]; [lia|].
    now rewrite (H9 1704067200000 eq_refl).
Defined.

(* ===================================================================== *)
(** * Properties of the duration edit *)
(* ===================================================================== *)

Lemma editTotalSeconds_same (h m s : string) :
  History.editTotalSeconds h m s = Timer.editTotalSeconds h m s.
Proof. reflexivity. Qed.

(** The claim C9 fails: a field that holds no number (the empty string of
    a cleared input, or letters) is parsed to [NaN], and the sum is then
    [NaN], not the sum with that component taken as zero. *)
Lemma non_numeric_component_gives_NaN :
  Js.parseInt "" = Js.NaN
  /\ Js.parseInt "abc" = Js.NaN
  /\ Timer.editTotalSeconds "" "5" "0" = Js.NaN
  /\ Timer.editTotalSeconds "" "5" "0" <> Js.Num (0 * 3600 + 5 * 60 + 0)
  /\ History.editTotalSeconds "1" "abc" "30" = Js.NaN
  /\ History.editTotalSeconds "1" "abc" "30"
     <> Js.Num (1 * 3600 + 0 * 60 + 30).
Proof. repeat split; try reflexivity; discriminate. Qed.

(** C9, as amended.  Both edit dialogs compute the same number from their
    three fields, each read by [parseInt]: when all three parse, it is
    [h * 3600 + m * 60 + s]; when a component does not parse, it is [NaN]
    (no component is replaced by zero).  The handlers store that number as
    [editedDuration] of the staged entry and of the edited durable entry. *)
Theorem editTotalSeconds_parsed :
  forall (editHours editMinutes editSeconds : string),
    History.editTotalSeconds editHours editMinutes editSeconds
    = Timer.editTotalSeconds editHours editMinutes editSeconds
    /\ (forall h m s : Z,
          Js.parseInt editHours = Js.Num h ->
          Js.parseInt editMinutes = Js.Num m ->
          Js.parseInt editSeconds = Js.Num s ->
          Timer.editTotalSeconds editHours editMinutes editSeconds
          = Js.Num (h * 3600 + m * 60 + s))
    /\ (Js.parseInt editHours = Js.NaN
        \/ Js.parseInt editMinutes = Js.NaN
        \/ Js.parseInt editSeconds = Js.NaN ->
        Timer.editTotalSeconds editHours editMinutes editSeconds = Js.NaN)
    /\ (forall (st : Page.State) (cur : Page.TimeEntry),
          Page.currentEntry st = Some cur ->
          Page.currentEntry
            (Timer.handleEditTime editHours editMinutes editSeconds st)
          = Some (Page.withEditedDuration cur
                    (Timer.editTotalSeconds editHours editMinutes
                       editSeconds)))
    /\ (forall (st : Page.State) (e : Page.TimeEntry),
          Page.timeEntries
            (History.handleUpdateEntry (Some e) editHours editMinutes
               editSeconds st)
          = map (fun entry =>
                   if String.eqb (Page.id entry) (Page.id e)
                   then Page.withEditedDuration entry
                          (Timer.editTotalSeconds editHours editMinutes
                             editSeconds)
                   else entry)
                (Page.timeEntries st)).
Proof.
  intros eh em es. split; [reflexivity|]. split; [|split; [|split]].
  - intros h m s Hh Hm Hs. unfold Timer.editTotalSeconds.
    now rewrite Hh, Hm, Hs.
  - unfold Timer.editTotalSeconds.
    intros [H|[H|H]]; rewrite H;
      destruct (Js.parseInt eh), (Js.parseInt em), (Js.parseInt es);
      reflexivity || discriminate.
  - intros st cur Hcur. unfold Timer.handleEditTime. now rewrite Hcur.
  - reflexivity.
Qed.

(** The scenario of the specification: editing to 0 h 2 min 0 s gives 120
    seconds. *)
Lemma editTotalSeconds_parsed_witness :
  Timer.editTotalSeconds "0" "2" "0" = Js.Num 120.
Proof.
  destruct (editTotalSeconds_parsed "0" "2" "0") as (_ & H & _).
  exact (H 0 2 0 eq_refl eq_refl eq_refl).
Defined.

(* ===================================================================== *)
(** * Properties of the pagination *)
(* ===================================================================== *)

Section Pagination.
Context {A : Type}.

Lemma firstn_plus (a b : nat) (l : list A) :
  firstn (a + b) l = (firstn a l ++ firstn b (skipn a l))%list.
Proof.
  revert l. induction a as [|a IH]; intros l; [reflexivity|].
  destruct l as [|x l]; simpl.
  - now rewrite firstn_nil.
  - now rewrite IH.
Qed.

(** The slice of page [k + 1] is the [k]-th block of ten. *)
Lemma slice_block (k : nat) (l : list A) :
  Js.slice (Z.of_nat k * 10) (Z.of_nat k * 10 + 10) l
  = firstn 10 (skipn (k * 10) l).
Proof.
  unfold Js.slice.
  destruct (Z.ltb_spec (Z.of_nat k * 10) 0) as [L|_]; [lia|].
  destruct (Z.ltb_spec (Z.of_nat k * 10 + 10) 0) as [L|_]; [lia|].
  destruct (Nat.le_gt_cases (List.length l) (k * 10)) as [Hle|Hgt].
  - rewrite (skipn_all2 _ Hle), firstn_nil.
    replace (Z.to_nat (Z.min (Z.of_nat k * 10) (Z.of_nat (List.length l))))
      with (List.length l) by lia.
    now rewrite skipn_all, firstn_nil.
  - replace (Z.to_nat (Z.min (Z.of_nat k * 10) (Z.of_nat (List.length l))))
      with (k * 10)%nat by lia.
    destruct (Nat.le_gt_cases (List.length l) (k * 10 + 10)) as [Hle'|Hgt'].
    + replace (Z.to_nat _) with (List.length l - k * 10)%nat by lia.
      rewrite !firstn_all2; trivial; rewrite length_skipn; lia.
    + f_equal. lia.
Qed.

Lemma blocks_concat (n : nat) (l : list A) :
  List.concat (map (fun k => firstn 10 (skipn (k * 10) l)) (seq 0 n))
  = firstn (n * 10) l.
Proof.
  induction n as [|n IH]; [reflexivity|].
  rewrite seq_S, map_app, concat_app, IH.
  cbn [map List.concat Nat.add]. rewrite app_nil_r.
  replace (S n * 10)%nat with (n * 10 + 10)%nat by lia.
  now rewrite firstn_plus.
Qed.

End Pagination.

Lemma totalPages_bounds (filtered : list Page.TimeEntry) :
  History.totalPages filtered * 10 - 10 < Z.of_nat (List.length filtered)
  <= History.totalPages filtered * 10.
Proof.
  unfold History.totalPages, Js.ceilDiv, History.itemsPerPage.
  Z.to_euclidean_division_equations; lia.
Qed.

(** C5.  For every list of filtered and sorted entries, of any length
    [n >= 0]: the number of pages is [ceil (n / 10)], page [k] is the slice
    [(k-1)*10 .. k*10) of the list, and the pages [1 .. ceil (n / 10)]
    concatenated in order give the list back, entry for entry. *)
Theorem pagination_reconstructs_list :
  forall filtered : list Page.TimeEntry,
    (History.totalPages filtered * 10 - 10 < Z.of_nat (List.length filtered)
     <= History.totalPages filtered * 10)
    /\ (forall k : nat,
          History.paginatedEntries filtered (Z.of_nat k + 1)
          = firstn 10 (skipn (k * 10) filtered))
    /\ List.concat
         (map (History.paginatedEntries filtered)
              (History.pageNumbers (History.totalPages filtered)))
       = filtered.
Proof.
  intros filtered.
  assert (P : forall k : nat,
             History.paginatedEntries filtered (Z.of_nat k + 1)
             = firstn 10 (skipn (k * 10) filtered)).
  { intros k. unfold History.paginatedEntries, History.itemsPerPage.
    replace (Z.of_nat k + 1 - 1) with (Z.of_nat k) by lia.
    apply slice_block. }
  pose proof (totalPages_bounds filtered) as B.
  split; [exact B|]. split; [exact P|].
  unfold History.pageNumbers. rewrite map_map.
  rewrite (map_ext _ (fun k => firstn 10 (skipn (k * 10) filtered)) P).
  rewrite blocks_concat. apply firstn_all2. lia.
Qed.

(* ===================================================================== *)
(** * Properties of the filter *)
(* ===================================================================== *)

Section SortPermutation.
Context {A : Type} (compareFn : A -> A -> Js.number).

Lemma insertSorted_perm (x : A) (l : list A) :
  Permutation (Js.insertSorted compareFn x l) (x :: l).
Proof.
  induction l as [|y l IH]; simpl; [apply Permutation_refl|].
  destruct (Js.sortsAfter compareFn x y).
  - apply Permutation_trans with (y :: x :: l).
    + now apply perm_skip.
    + apply perm_swap.
  - apply Permutation_refl.
Qed.

Lemma sort_perm (l : list A) : Permutation (Js.sort compareFn l) l.
Proof.
  induction l as [|x l IH]; simpl; [apply perm_nil|].
  apply Permutation_trans with (x :: Js.sort compareFn l).
  - apply insertSorted_perm.
  - now apply perm_skip.
Qed.

End SortPermutation.

Lemma filter_filter {A : Type} (f g : A -> bool) (l : list A) :
  filter f (filter g l) = filter (fun x => g x && f x) l.
Proof.
  induction l as [|x l IH]; simpl; [reflexivity|].
  destruct (g x); simpl; [destruct (f x)|]; now rewrite IH.
Qed.

Lemma filter_true {A : Type} (l : list A) : filter (fun _ => true) l = l.
Proof. induction l as [|x l IH]; simpl; now rewrite ?IH. Qed.

Lemma leb_empty (s : string) : String.leb "" s = true.
Proof. now destruct s. Qed.

Lemma nonEmpty_false (s : string) : Js.nonEmpty s = false <-> s = "".
Proof. destruct s; simpl; split; congruence. Qed.

(** Up to the order the sort gives them, the listed entries are the
    entries that pass. *)
Lemma filteredEntries_perm (tz : Z) (entries : list Page.TimeEntry)
    (p from to : string) :
  Permutation (History.filteredEntries tz entries p from to)
              (filter (History.passes p from to) entries).
Proof.
  unfold History.filteredEntries.
  eapply Permutation_trans; [apply sort_perm|].
  match goal with |- Permutation ?l ?r => replace l with r end;
    [apply Permutation_refl|].
  unfold History.passes.
  destruct (String.eqb p "all"), (Js.nonEmpty from), (Js.nonEmpty to);
    cbn [negb orb andb]; rewrite ?filter_filter;
    first [ reflexivity
          | apply filter_true
          | apply filter_ext; intros e;
            now rewrite ?andb_true_r, ?andb_assoc ].
Qed.

Lemma passes_iff (p from to : string) (e : Page.TimeEntry) :
  History.passes p from to e = true
  <-> (p <> "all" -> Page.projectId e = p)
      /\ String.leb from (Page.date e) = true
      /\ (to <> "" -> String.leb (Page.date e) to = true).
Proof.
  unfold History.passes. rewrite !andb_true_iff, !orb_true_iff.
  rewrite !negb_true_iff, !nonEmpty_false, !String.eqb_eq.
  split.
  - intros [[Hp Hf] Ht]. repeat split.
    + intros Hn. destruct Hp as [Hp|Hp]; [contradiction|exact Hp].
    + destruct Hf as [->|Hf]; [apply leb_empty|exact Hf].
    + intros Hn. destruct Ht as [Ht|Ht]; [contradiction|exact Ht].
  - intros (Hp & Hf & Ht). repeat split.
    + destruct (string_dec p "all") as [E|E]; [now left|right; now apply Hp].
    + now right.
    + destruct (string_dec to "") as [E|E]; [now left|right; now apply Ht].
Qed.

Lemma filteredEntries_In (tz : Z) (entries : list Page.TimeEntry)
    (p from to : string) (e : Page.TimeEntry) :
  In e (History.filteredEntries tz entries p from to)
  <-> In e entries
      /\ (p <> "all" -> Page.projectId e = p)
      /\ String.leb from (Page.date e) = true
      /\ (to <> "" -> String.leb (Page.date e) to = true).
Proof.
  rewrite <- passes_iff, <- filter_In. split; apply Permutation_in.
  - apply filteredEntries_perm.
  - apply Permutation_sym, filteredEntries_perm.
Qed.

(** An empty "To Date" field means that no upper bound is chosen: the
    filter is then not applied, and an entry is listed although its date
    is not [<=] the empty string. *)
Lemma empty_upper_bound_is_not_applied :
  In (Sample.entry "2024-01-05" 60 None)
     (History.filteredEntries 0 [Sample.entry "2024-01-05" 60 None]
        "all" "2024-01-01" "")
  /\ String.leb (Page.date (Sample.entry "2024-01-05" 60 None)) "" = false.
Proof. split; [left|]; reflexivity. Qed.

(** C4.  A bound of the date range is set when its field is not empty
    (the empty lower bound is below every date, so it needs no case of its
    own).  The listed entries are exactly the entries that belong to the
    selected project (any project for ["all"]), whose date is [>=] the
    lower bound, and whose date is [<=] the upper bound when one is set;
    dates are compared as strings.  Hence with a project selected only its
    entries are listed, with the date range set only entries with
    [from <= date <= to] are listed, and both filters together list exactly
    the intersection of what each of them lists. *)
Theorem filteredEntries_filters :
  forall (tz : Z) (entries : list Page.TimeEntry) (p from to : string),
    (forall e,
       In e (History.filteredEntries tz entries p from to)
       <-> In e entries
           /\ (p <> "all" -> Page.projectId e = p)
           /\ String.leb from (Page.date e) = true
           /\ (to <> "" -> String.leb (Page.date e) to = true))
    /\ (p <> "all" ->
        forall e, In e (History.filteredEntries tz entries p from to) ->
                  Page.projectId e = p)
    /\ (to <> "" ->
        forall e, In e (History.filteredEntries tz entries p from to) ->
                  String.leb from (Page.date e) = true
                  /\ String.leb (Page.date e) to = true)
    /\ (forall e,
          In e (History.filteredEntries tz entries p from to)
          <-> In e (History.filteredEntries tz entries p "" "")
              /\ In e (History.filteredEntries tz entries "all" from to)).
Proof.
  intros tz entries p from to. split; [|split; [|split]].
  - intros e. apply filteredEntries_In.
  - intros Hp e He. apply filteredEntries_In in He. now apply He.
  - intros Ht e He. apply filteredEntries_In in He.
    destruct He as (_ & _ & Hf & Hto). split; [exact Hf|now apply Hto].
  - intros e. rewrite !filteredEntries_In. split.
    + intros (Hin & Hp & Hf & Ht).
      repeat split; trivial; try apply leb_empty; intros K; now elim K.
    + intros [(Hin & Hp & _) (_ & _ & Hf & Ht)]. now repeat split.
Qed.

Lemma filteredEntries_filters_witness :
  Page.projectId (Sample.entry "2024-01-05" 60 None) = "1"
  /\ String.leb "2024-01-01" (Page.date (Sample.entry "2024-01-05" 60 None))
     = true
  /\ String.leb (Page.date (Sample.entry "2024-01-05" 60 None)) "2024-01-31"
     = true.
Proof.
  destruct (filteredEntries_filters 0
              [Sample.entry "2024-01-05" 60 None;
               Sample.entry "2024-02-01" 60 None]
              "1" "2024-01-01" "2024-01-31") as (_ & Hp & Hd & _).
  assert (He : In (Sample.entry "2024-01-05" 60 None)
                  (History.filteredEntries 0
                     [Sample.entry "2024-01-05" 60 None;
                      Sample.entry "2024-02-01" 60 None]
                     "1" "2024-01-01" "2024-01-31"))
    by (left; reflexivity).
  split.
  - apply Hp; [discriminate|exact He].
  - apply Hd; [discriminate|exact He].
Defined.

(* ===================================================================== *)
(** * Witnesses for the registry *)
(* ===================================================================== *)

Lemma updateProject_propagates_name_witness :
  map Page.projectName
      (Page.timeEntries
         (Page.updateProject "1" "Branding" "#EF4444"
            (Page.saveEntry (Sample.entry "2024-01-05" 60 None) Sample.state)))
  = ["Branding"].
Proof.
  destruct (updateProject_propagates_name
              (Page.saveEntry (Sample.entry "2024-01-05" 60 None) Sample.state)
              "1" "Branding" "#EF4444") as [_ H].
  - left. reflexivity.
  - destruct (H 0%nat (Sample.entry "2024-01-05" 60 None) eq_refl)
      as (e' & Hnth & Hsame & _).
    destruct (Hsame eq_refl) as [Hname _].
    cbn in Hnth. injection Hnth as <-. reflexivity.
Defined.

(** The claim C7 fails on a dangling reference: after project ["2"] is
    deleted, [updateProject "2"] still renames the entry that refers to
    it. *)
Lemma updateProject_renames_dangling_entry :
  ~ In "2" (map Page.p_id (Page.projects Sample.dangling))
  /\ map Page.projectName (Page.timeEntries Sample.dangling) = ["Research"]
  /\ map Page.projectName
         (Page.timeEntries
            (Page.updateProject "2" "Renamed" "#000000" Sample.dangling))
     = ["Renamed"]
  /\ Page.updateProject "2" "Renamed" "#000000" Sample.dangling
     <> Sample.dangling.
Proof.
  split; [|split; [|split]]; try reflexivity.
  - intros [H|[]]. discriminate H.
  - intros H. apply (f_equal Page.timeEntries) in H. discriminate H.
Qed.

Lemma updateProject_absent_id_witness :
  Page.projects (Page.updateProject "9" "Ghost" "#000000" Sample.state)
  = Page.projects Sample.state
  /\ Page.updateProject "9" "Ghost" "#000000" Sample.state = Sample.state.
Proof.
  destruct (updateProject_absent_id Sample.state "9" "Ghost" "#000000")
    as (HP & _ & _ & _ & Hsame).
  - intros [H|[]]. discriminate H.
  - split; [exact HP|]. apply Hsame. intros e [].
Defined.

Lemma deleteProject_keeps_entries_witness :
  Page.timeEntries
    (Page.deleteProject "1"
       (Page.saveEntry (Sample.entry "2024-01-05" 60 None) Sample.state))
  = [Sample.entry "2024-01-05" 60 None]
  /\ List.length
       (Page.projects
          (Page.deleteProject "1"
             (Page.saveEntry (Sample.entry "2024-01-05" 60 None)
                Sample.state))) = 0%nat.
Proof.
  destruct (deleteProject_keeps_entries
              (Page.saveEntry (Sample.entry "2024-01-05" 60 None) Sample.state)
              "1") as (HE & _ & _ & HL).
  split; [exact HE|].
  apply eq_add_S. apply HL.
  - repeat constructor. intros [].
  - left. reflexivity.
Defined.

(* ===================================================================== *)
(** * The effective duration *)
(* ===================================================================== *)

Lemma orElse_absent (d : Js.number) : Js.orElse None d = d.
Proof. reflexivity. Qed.

Lemma orElse_nonzero (z : Z) (d : Js.number) :
  z <> 0 -> Js.orElse (Some (Js.Num z)) d = Js.Num z.
Proof.
  intros H. unfold Js.orElse, Js.truthy.
  now rewrite (proj2 (Z.eqb_neq z 0) H).
Qed.

Lemma orElse_zero (d : Js.number) : Js.orElse (Some (Js.Num 0)) d = d.
Proof. reflexivity. Qed.

Lemma orElse_NaN (d : Js.number) : Js.orElse (Some Js.NaN) d = d.
Proof. reflexivity. Qed.

(** C1, the code at the failing input.  The saved entry has
    [duration = 90] and [editedDuration = 0], present; every aggregation
    counts it as 90 seconds, the measured duration, where the rule of the
    specification gives 0. *)
Theorem edited_to_zero_is_counted_as_measured :
  exists e,
    Page.timeEntries Sample.editedToZero = [e]
    /\ Page.duration e = Js.Num 90
    /\ Page.editedDuration e = Some (Js.Num 0)
    /\ effectiveDuration e = Js.Num 0
    /\ History.totalSeconds
         (History.filteredEntries 0 (Page.timeEntries Sample.editedToZero)
            "all" "" "") = Js.Num 90
    /\ Charts.totalSeconds (Page.timeEntries Sample.editedToZero) = Js.Num 90
    /\ Charts.weeklyData 0 (Page.timeEntries Sample.editedToZero)
       = Some [("Dec 31", Js.Num 90)]
    /\ Timer.shownTime e = Js.Num 90.
Proof. eexists. repeat split; vm_compute; reflexivity. Qed.

(* ===================================================================== *)
(** * The weekly series *)
(* ===================================================================== *)

(** C10, the code at the failing input.  Nine entries fall into nine
    weeks, from the week of 2023-11-12 to the week of 2024-01-07.  The
    series is sorted by its labels, which carry no year and are read back
    as days of 2001, so it puts the week of January first and the last
    eight rows drop it: the most recent week is missing from the series
    and the oldest one is kept. *)
Theorem weeklyData_drops_most_recent_week :
  Charts.weeklyMap 0 Sample.nineWeeks []
  = Some [("2023-11-12", Js.Num 3600); ("2023-11-19", Js.Num 3600);
          ("2023-11-26", Js.Num 3600); ("2023-12-03", Js.Num 3600);
          ("2023-12-10", Js.Num 3600); ("2023-12-17", Js.Num 3600);
          ("2023-12-24", Js.Num 3600); ("2023-12-31", Js.Num 3600);
          ("2024-01-07", Js.Num 3600)]
  /\ Js.dateParse 0 "Jan 7" = Js.dateParse 0 "2001-01-07"
  /\ Charts.weeklyData 0 Sample.nineWeeks
     = Some [("Nov 12", Js.Num 3600); ("Nov 19", Js.Num 3600);
             ("Nov 26", Js.Num 3600); ("Dec 3", Js.Num 3600);
             ("Dec 10", Js.Num 3600); ("Dec 17", Js.Num 3600);
             ("Dec 24", Js.Num 3600); ("Dec 31", Js.Num 3600)].
Proof. repeat split; vm_compute; reflexivity. Qed.

(* ===================================================================== *)
(** * Further properties *)
(* ===================================================================== *)

(** The timer's own handlers, with their guards: for a selected project
    that exists, Start, Stop and Save in this order add exactly one entry
    to the durable store and leave the session idle, from every state.
    (From a running session Start is suppressed, and the running entry is
    the one stopped and saved.) *)
Theorem handlers_start_stop_save :
  forall (tz : Z) (st : Page.State) (nowId nowStart nowDate nowStop : Z)
         (selectedProject : string),
    selectedProject <> "" ->
    In selectedProject (map Page.p_id (Page.projects st)) ->
    List.length
      (Page.timeEntries
         (Timer.handleSave
            (Timer.handleStop tz nowStop
               (Timer.handleStart nowId nowStart nowDate selectedProject
                  st))))
    = S (List.length (Page.timeEntries st))
    /\ Timer.sessionOf
         (Timer.handleSave
            (Timer.handleStop tz nowStop
               (Timer.handleStart nowId nowStart nowDate selectedProject
                  st)))
       = Timer.Idle.
Proof.
  intros tz st nowId nowStart nowDate nowStop pid Hne Hin.
  destruct (find_existing_project pid _ Hin) as (p & Hfind & _).
  assert (Hsel : Js.nonEmpty pid = true)
    by (destruct pid; [now elim Hne | reflexivity]).
  unfold Timer.handleStart. rewrite Hsel.
  destruct st as [ps es [cur|]]; unfold Timer.running; cbn [Page.currentEntry].
  - destruct (Page.isRunning cur) eqn:Hrun; cbn [negb andb].
    + unfold Timer.handleStop, Timer.running. cbn [Page.currentEntry].
      rewrite Hrun. unfold Page.stopTimer, Timer.handleSave, Timer.sessionOf.
      cbn. rewrite length_app. simpl. split; [lia|reflexivity].
    + unfold Page.startTimer. cbn [Page.projects] in *. rewrite Hfind.
      unfold Timer.handleStop, Timer.running, Page.stopTimer,
        Timer.handleSave, Timer.sessionOf.
      cbn [Page.currentEntry Page.isRunning Page.stopped negb
           Page.saveEntry Page.timeEntries].
      rewrite length_app. simpl. split; [lia|reflexivity].
  - cbn [negb andb]. unfold Page.startTimer. cbn [Page.projects] in *.
    rewrite Hfind.
    unfold Timer.handleStop, Timer.running, Page.stopTimer,
      Timer.handleSave, Timer.sessionOf.
    cbn [Page.currentEntry Page.isRunning Page.stopped negb
         Page.saveEntry Page.timeEntries].
    rewrite length_app. simpl. split; [lia|reflexivity].
Qed.

Lemma handlers_start_stop_save_witness :
  List.length
    (Page.timeEntries
       (Timer.handleSave
          (Timer.handleStop 0 1704067290000
             (Timer.handleStart 1704067200000 1704067200000 1704067200000
                "1" Sample.state)))) = 1%nat.
Proof.
  apply (handlers_start_stop_save 0 Sample.state 1704067200000 1704067200000
           1704067200000 1704067290000 "1").
  - discriminate.
  - left. reflexivity.
Defined.

(** Where every edited duration that is present is a non-zero number, the
    totals of the history and of the analytics are the sum of the effective
    durations of the specification. *)
Theorem totals_sum_effective_durations :
  forall entries : list Page.TimeEntry,
    (forall e, In e entries ->
               match Page.editedDuration e with
               | Some n => Js.truthy n = true
               | None => True
               end) ->
    History.totalSeconds entries
    = fold_left (fun total e => total +j effectiveDuration e) entries
                (Js.Num 0)
    /\ Charts.totalSeconds entries
       = fold_left (fun total e => total +j effectiveDuration e) entries
                   (Js.Num 0).
Proof.
  intros entries H.
  assert (K : forall acc,
             fold_left
               (fun total entry =>
                  total +j Js.orElse (Page.editedDuration entry)
                                     (Page.duration entry))
               entries acc
             = fold_left (fun total e => total +j effectiveDuration e)
                         entries acc).
  { induction entries as [|e l IH]; intros acc; [reflexivity|].
    simpl. rewrite IH by (intros x Hx; apply H; now right).
    do 2 f_equal. specialize (H e (or_introl eq_refl)).
    unfold effectiveDuration, Js.orElse.
    destruct (Page.editedDuration e) as [n|]; [now rewrite H|reflexivity]. }
  split; apply K.
Qed.

Lemma totals_sum_effective_durations_witness :
  History.totalSeconds
    [Sample.entry "2024-01-01" 90 (Some (Js.Num 120));
     Sample.entry "2024-01-02" 30 None] = Js.Num 150.
Proof.
  rewrite (proj1 (totals_sum_effective_durations
                    [Sample.entry "2024-01-01" 90 (Some (Js.Num 120));
                     Sample.entry "2024-01-02" 30 None]
                    ltac:(intros e [<-|[<-|[]]]; exact eq_refl || exact I))).
  reflexivity.
Defined.

(** ** The key of the week of an entry *)

Lemma string_app_assoc (a b c : string) :
  ((a ++ b) ++ c = a ++ (b ++ c))%string.
Proof. induction a as [|x a IH]; simpl; congruence. Qed.

Lemma beforeT_app_T (a b : string) :
  (forall rest, Js.beforeT (a ++ rest) = a ++ Js.beforeT rest)%string ->
  Js.beforeT (a ++ "T" ++ b) = a.
Proof.
  intros H. rewrite H. simpl. generalize a. clear.
  induction a as [|c a IH]; simpl; congruence.
Qed.

Lemma digitChar_not_T (d : Z) : Ascii.eqb (Js.digitChar (d mod 10)) "T" = false.
Proof.
  destruct (Ascii.eqb_spec (Js.digitChar (d mod 10)) "T") as [E|E];
    [|reflexivity].
  pose proof (digitOf_digitChar (d mod 10)
                ltac:(Z.to_euclidean_division_equations; lia)) as K.
  rewrite E in K. discriminate K.
Qed.

Lemma beforeT_app (a b : string) :
  (forall rest, Js.beforeT (a ++ rest) = a ++ Js.beforeT rest)%string ->
  (forall rest, Js.beforeT (b ++ rest) = b ++ Js.beforeT rest)%string ->
  (forall rest,
     Js.beforeT ((a ++ b) ++ rest) = (a ++ b) ++ Js.beforeT rest)%string.
Proof.
  intros Ha Hb rest. now rewrite !string_app_assoc, Ha, Hb.
Qed.

Lemma beforeT_padded (w : nat) (n : Z) (rest : string) :
  (Js.beforeT (Js.padded w n ++ rest)
   = Js.padded w n ++ Js.beforeT rest)%string.
Proof.
  revert n rest. induction w as [|w IH]; intros n rest; [reflexivity|].
  cbn [Js.padded]. revert rest. apply beforeT_app; [apply IH|].
  intros rest. cbn [String.append Js.beforeT]. now rewrite digitChar_not_T.
Qed.

Lemma beforeT_isoDate (day : Z) (rest : string) :
  (Js.beforeT (Js.isoDate day ++ rest)
   = Js.isoDate day ++ Js.beforeT rest)%string.
Proof.
  revert rest. unfold Js.isoDate.
  destruct (Js.civilFromDays day) as [[y m] d].
  apply beforeT_app.
  - destruct ((0 <=? y) && (y <=? 9999)).
    + intros rest. apply beforeT_padded.
    + apply beforeT_app; [|intros rest; apply beforeT_padded].
      destruct (y <? 0); intros rest; reflexivity.
  - apply (beforeT_app "-"); [intros rest; reflexivity|].
    apply beforeT_app; [intros rest; apply beforeT_padded|].
    apply (beforeT_app "-"); [intros rest; reflexivity|].
    intros rest; apply beforeT_padded.
Qed.

Lemma beforeT_isoString (t : Z) :
  Js.beforeT (Js.isoString t) = Js.isoDate (Js.Day t).
Proof.
  unfold Js.isoString. apply beforeT_app_T. apply beforeT_isoDate.
Qed.

Lemma Day_of_midnight (day : Z) : Js.Day (day * Js.msPerDay) = day.
Proof. unfold Js.Day, Js.msPerDay. now rewrite Z.div_mul. Qed.

(** In every time zone, an entry whose date is the calendar day [day]
    (years 0000-9999) gets the key of the day [day - w], where [w] is the
    day of the week that UTC midnight of [day] falls on in local time. *)
Lemma weekKey_of_day (tz day : Z) (e : Page.TimeEntry) :
  -719528 <= day <= 2932896 ->
  Page.date e = Js.isoDate day ->
  Charts.weekKey tz e
  = Some (Js.isoDate
            (day - Js.WeekDay (Js.Day (Js.LocalTime tz (day * Js.msPerDay))))).
Proof.
  intros Hday Hdate. unfold Charts.weekKey. rewrite Hdate.
  unfold Js.dateParse. rewrite (parseIso_isoDate day Hday).
  unfold Js.getDate, Js.getDay, Js.setDate.
  set (local := Js.LocalTime tz (day * Js.msPerDay)).
  pose proof (civil_roundtrip (Js.Day local)) as R.
  destruct (Js.civilFromDays (Js.Day local)) as [[y m] d].
  destruct R as (_ & _ & R).
  cbn [Js.sub Js.toISOString option_map]. rewrite beforeT_isoString.
  do 2 f_equal.
  assert (E : (Js.daysFromCivil y m 1 + (d - Js.WeekDay (Js.Day local)) - 1)
              * Js.msPerDay + Js.TimeWithinDay local
              = local - Js.WeekDay (Js.Day local) * Js.msPerDay).
  { replace (Js.daysFromCivil y m 1 + (d - Js.WeekDay (Js.Day local)) - 1)
      with (Js.Day local - Js.WeekDay (Js.Day local))
      by (rewrite <- R at 1; unfold Js.daysFromCivil; lia).
    unfold Js.Day, Js.TimeWithinDay, Js.msPerDay.
    generalize (Js.WeekDay (local / 86400000)). intros w.
    Z.to_euclidean_division_equations; lia. }
  rewrite E. unfold Js.UTC. unfold local at 1. unfold Js.LocalTime.
  replace (day * Js.msPerDay + tz * 60000
           - Js.WeekDay (Js.Day local) * Js.msPerDay - tz * 60000)
    with ((day - Js.WeekDay (Js.Day local)) * Js.msPerDay) by lia.
  apply Day_of_midnight.
Qed.

(** In a time zone with the fixed offset [tz] (no daylight-saving
    changes): at or east of UTC the key of the week of an entry is the
    Sunday on or before its date; west of UTC it is the Monday on or
    before its date. *)
Theorem weekKey_start_of_week :
  forall (tz day : Z) (e : Page.TimeEntry),
    -719528 <= day <= 2932896 ->
    Page.date e = Js.isoDate day ->
    (0 <= tz < 1440 ->
     exists sunday,
       Charts.weekKey tz e = Some (Js.isoDate sunday)
       /\ Js.WeekDay sunday = 0 /\ sunday <= day < sunday + 7)
    /\ (-1440 < tz < 0 ->
        exists monday,
          Charts.weekKey tz e = Some (Js.isoDate monday)
          /\ Js.WeekDay monday = 1 /\ monday <= day < monday + 7).
Proof.
  intros tz day e Hday Hdate.
  rewrite (weekKey_of_day tz day e Hday Hdate).
  unfold Js.LocalTime, Js.Day, Js.msPerDay. split; intros Htz.
  - replace ((day * 86400000 + tz * 60000) / 86400000) with day
      by (Z.to_euclidean_division_equations; lia).
    eexists. split; [reflexivity|]. unfold Js.WeekDay.
    Z.to_euclidean_division_equations; lia.
  - replace ((day * 86400000 + tz * 60000) / 86400000) with (day - 1)
      by (Z.to_euclidean_division_equations; lia).
    eexists. split; [reflexivity|]. unfold Js.WeekDay.
    Z.to_euclidean_division_equations; lia.
Qed.

Lemma weekKey_start_of_week_witness :
  exists sunday,
    Charts.weekKey 60 (Sample.entry "2024-01-10" 60 None)
    = Some (Js.isoDate sunday)
    /\ Js.WeekDay sunday = 0 /\ sunday <= 19732 < sunday + 7.
Proof.
  apply (proj1 (weekKey_start_of_week 60 19732
                  (Sample.entry "2024-01-10" 60 None)
                  ltac:(lia) eq_refl)).
  lia.
Defined.

(** ** The strings [startTimer] and [stopTimer] store *)

(** For a clock reading [t] in the years 0000-9999, the ISO string of [t]
    reads back as [t], its part before ['T'] is the calendar day of [t],
    and that day reads back as UTC midnight of the day. *)
Theorem stored_times_read_back :
  forall tz t : Z,
    -62167219200000 <= t <= 253402300799999 ->
    Js.dateParse tz (Js.isoString t) = Js.Num t
    /\ Js.beforeT (Js.isoString t) = Js.isoDate (Js.Day t)
    /\ Js.dateParse tz (Js.beforeT (Js.isoString t))
       = Js.Num (Js.Day t * Js.msPerDay).
Proof.
  intros tz t Ht. split; [now apply dateParse_isoString|].
  rewrite beforeT_isoString. split; [reflexivity|].
  unfold Js.dateParse. rewrite parseIso_isoDate; [reflexivity|].
  unfold Js.Day, Js.msPerDay. Z.to_euclidean_division_equations; lia.
Qed.

Lemma stored_times_read_back_witness :
  Js.dateParse 0 (Js.isoString 1704067290123) = Js.Num 1704067290123
  /\ Js.beforeT (Js.isoString 1704067290123) = Js.isoDate (Js.Day 1704067290123)
  /\ Js.dateParse 0 (Js.beforeT (Js.isoString 1704067290123))
     = Js.Num (Js.Day 1704067290123 * Js.msPerDay).
Proof. apply (stored_times_read_back 0 1704067290123). lia. Defined.

(** ** The scenario of the specification *)

(** The timer is started on project "Design" at [T0] and stopped 90
    seconds later; the staged entry is edited to 0 h 2 min 0 s and saved.
    The durable store then holds one entry with [duration = 90] and
    [editedDuration = 120], and the total is 120 seconds, not 90. *)
Theorem scenario_edit_then_save :
  exists e,
    Page.timeEntries
      (Timer.handleSave
         (Timer.handleEditTime "0" "2" "0"
            (Timer.handleStop 0 1704067290000
               (Timer.handleStart 1704067200000 1704067200000 1704067200000
                  "1" Sample.state)))) = [e]
    /\ Page.projectName e = "Design"
    /\ Page.duration e = Js.Num 90
    /\ Page.isRunning e = false
    /\ Page.editedDuration e = Some (Js.Num 120)
    /\ History.totalSeconds (History.filteredEntries 0 [e] "all" "" "")
       = Js.Num 120.
Proof. eexists. repeat split; vm_compute; reflexivity. Qed.

(** ** The order of the listed entries *)

Section SortedByDate.
Variable tz : Z.

Lemma sortsAfter_byDateDesc (a b : Page.TimeEntry) (ta tb : Z) :
  History.timeOf tz a = Some ta -> History.timeOf tz b = Some tb ->
  Js.sortsAfter (History.byDateDesc tz) a b = (ta <? tb).
Proof.
  unfold History.timeOf, Js.sortsAfter, History.byDateDesc.
  destruct (Js.dateParse tz (Page.date a)); [|discriminate].
  destruct (Js.dateParse tz (Page.date b)); [|discriminate].
  intros [= ->] [= ->]. simpl.
  destruct (Z.ltb_spec 0 (tb - ta)), (Z.ltb_spec ta tb); trivial; lia.
Qed.

Lemma notOlder_trans (a b c : Page.TimeEntry) :
  History.notOlder tz a b -> History.notOlder tz b c ->
  History.notOlder tz a c.
Proof.
  unfold History.notOlder.
  destruct (History.timeOf tz a), (History.timeOf tz b),
    (History.timeOf tz c); try tauto; lia.
Qed.

Lemma insertSorted_sorted (x : Page.TimeEntry) (l : list Page.TimeEntry) :
  (exists t, History.timeOf tz x = Some t) ->
  (forall e, In e l -> exists t, History.timeOf tz e = Some t) ->
  StronglySorted (History.notOlder tz) l ->
  StronglySorted (History.notOlder tz)
                 (Js.insertSorted (History.byDateDesc tz) x l).
Proof.
  intros [tx Hx] Hl Hs. induction Hs as [|y l Hs IH Hy]; simpl.
  - repeat constructor.
  - destruct (Hl y (or_introl eq_refl)) as [ty Hty].
    rewrite (sortsAfter_byDateDesc x y tx ty Hx Hty).
    destruct (Z.ltb_spec tx ty) as [L|L].
    + constructor.
      * apply IH. intros e He. apply Hl. now right.
      * apply Forall_forall. intros e He.
        apply (Permutation_in _
                 (insertSorted_perm (History.byDateDesc tz) x l)) in He.
        destruct He as [<-|He].
        -- unfold History.notOlder. rewrite Hx, Hty. lia.
        -- now apply (proj1 (Forall_forall _ _) Hy).
    + assert (Hxy : History.notOlder tz x y)
        by (unfold History.notOlder; rewrite Hx, Hty; lia).
      constructor; [now constructor|]. constructor; [exact Hxy|].
      apply Forall_forall. intros e He.
      apply (notOlder_trans x y e Hxy).
      now apply (proj1 (Forall_forall _ _) Hy).
Qed.

Lemma sort_sorted (l : list Page.TimeEntry) :
  (forall e, In e l -> exists t, History.timeOf tz e = Some t) ->
  StronglySorted (History.notOlder tz) (Js.sort (History.byDateDesc tz) l).
Proof.
  induction l as [|x l IH]; intros Hl; simpl; [constructor|].
  apply insertSorted_sorted.
  - apply Hl. now left.
  - intros e He. apply Hl. right.
    now apply (Permutation_in _ (sort_perm (History.byDateDesc tz) l)).
  - apply IH. intros e He. apply Hl. now right.
Qed.

End SortedByDate.

(** Where the date of every entry parses, the listed entries are ordered
    by date, newest first: every entry stands before all entries of an
    earlier or equal day that follow it. *)
Theorem filteredEntries_newest_first :
  forall (tz : Z) (entries : list Page.TimeEntry) (p from to : string),
    (forall e, In e entries -> exists t, History.timeOf tz e = Some t) ->
    StronglySorted (History.notOlder tz)
                   (History.filteredEntries tz entries p from to).
Proof.
  intros tz entries p from to H. unfold History.filteredEntries.
  apply sort_sorted. intros e He. apply H.
  destruct (negb (p =? "all")%string), (Js.nonEmpty from), (Js.nonEmpty to);
    repeat (apply filter_In in He; destruct He as [He _]); exact He.
Qed.

Lemma filteredEntries_newest_first_witness :
  StronglySorted (History.notOlder 0)
    (History.filteredEntries 0
       [Sample.entry "2024-01-05" 60 None; Sample.entry "2024-02-01" 60 None]
       "all" "" "").
Proof.
  apply (filteredEntries_newest_first 0).
  intros e [<-|[<-|[]]]; eexists; reflexivity.
Defined.

(* ===================================================================== *)
(** * The weekly series, continued *)
(* ===================================================================== *)

Section WeeklyMap.
Variable tz : Z.



Lemma get_set_same (k : string) (v : Js.number) (m : Charts.dict) :
  Charts.get k (Charts.set k v m) = Some v.
Proof.
  induction m as [|[k' v'] m IH]; simpl.
  - now rewrite String.eqb_refl.
  - destruct (String.eqb_spec k' k) as [E|E]; simpl.
    + now rewrite String.eqb_refl.
    + now rewrite (proj2 (String.eqb_neq k' k) E).
Qed.

Lemma get_set_other (k k0 : string) (v : Js.number) (m : Charts.dict) :
  k0 <> k -> Charts.get k (Charts.set k0 v m) = Charts.get k m.
Proof.
  intros Hne. induction m as [|[k' v'] m IH]; simpl.
  - now rewrite (proj2 (String.eqb_neq k0 k) Hne).
  - destruct (String.eqb_spec k' k0) as [E|E]; simpl.
    + subst k'. now rewrite (proj2 (String.eqb_neq k0 k) Hne).
    + now rewrite IH.
Qed.

Lemma set_keys (k : string) (v : Js.number) (m : Charts.dict) :
  map fst (Charts.set k v m)
  = match Charts.get k m with
    | Some _ => map fst m
    | None => (map fst m ++ [k])%list
    end.
Proof.
  induction m as [|[k' v'] m IH]; simpl; [reflexivity|].
  destruct (String.eqb_spec k' k) as [E|E]; simpl.
  - now subst.
  - rewrite IH. now destruct (Charts.get k m).
Qed.

Lemma get_None_keys (k : string) (m : Charts.dict) :
  Charts.get k m = None <-> ~ In k (map fst m).
Proof.
  induction m as [|[k' v'] m IH]; simpl; [tauto|].
  destruct (String.eqb_spec k' k) as [E|E].
  - split; [discriminate|]. intros H. exfalso. apply H. now left.
  - rewrite IH. tauto.
Qed.

Lemma set_NoDup (k : string) (v : Js.number) (m : Charts.dict) :
  NoDup (map fst m) -> NoDup (map fst (Charts.set k v m)).
Proof.
  intros H. rewrite set_keys.
  destruct (Charts.get k m) eqn:E; [exact H|].
  apply get_None_keys in E.
  apply (Permutation_NoDup (l := k :: map fst m)).
  - apply Permutation_cons_append.
  - now constructor.
Qed.

Lemma weeklyMap_NoDup (entries : list Page.TimeEntry) (acc m : Charts.dict) :
  NoDup (map fst acc) -> Charts.weeklyMap tz entries acc = Some m ->
  NoDup (map fst m).
Proof.
  revert acc. induction entries as [|e entries IH]; intros acc Hacc; simpl.
  - now intros [= <-].
  - destruct (Charts.weekKey tz e) as [k|]; [|discriminate].
    apply IH. now apply set_NoDup.
Qed.

Lemma sumFrom_Num (l : list Page.TimeEntry) (z : Z) :
  (forall e, In e l -> exists h, Charts.hours e = Js.Num h) ->
  exists z', Charts.sumFrom (Js.Num z) l = Js.Num z'.
Proof.
  unfold Charts.sumFrom.
  revert z. induction l as [|e l IH]; intros z H; simpl; [now exists z|].
  destruct (H e (or_introl eq_refl)) as [h Hh]. unfold Charts.hours in Hh.
  rewrite Hh. simpl. apply IH. intros x Hx. apply H. now right.
Qed.

Lemma weeklyMap_get (entries : list Page.TimeEntry) (acc m : Charts.dict) :
  (forall e, In e entries -> exists h, Charts.hours e = Js.Num h) ->
  (forall k v, Charts.get k acc = Some v -> exists z, v = Js.Num z) ->
  Charts.weeklyMap tz entries acc = Some m ->
  forall k,
    Charts.get k m
    = match Charts.get k acc with
      | Some v => Some (Charts.sumFrom v (filter (Charts.inWeek tz k) entries))
      | None =>
          if existsb (Charts.inWeek tz k) entries
          then Some (Charts.sumFrom (Js.Num 0) (filter (Charts.inWeek tz k) entries))
          else None
      end.
Proof.
  revert acc. induction entries as [|e entries IH]; intros acc Hh Hacc.
  - simpl. intros [= <-] k. now destruct (Charts.get k acc).
  - cbn [Charts.weeklyMap].
    destruct (Charts.weekKey tz e) as [k0|] eqn:Ek; [|discriminate].
    intros Hm k.
    destruct (Hh e (or_introl eq_refl)) as [h Hhe].
    set (v0 := Js.orElse (Charts.get k0 acc) (Js.Num 0)) in *.
    assert (Hv0 : exists z0,
               v0 = Js.Num z0
               /\ match Charts.get k0 acc with
                  | Some v => v = Js.Num z0
                  | None => z0 = 0
                  end).
    { unfold v0. destruct (Charts.get k0 acc) as [v|] eqn:Eg.
      - destruct (Hacc k0 v Eg) as [z ->]. exists z. split; [|reflexivity].
        simpl. now destruct (Z.eqb_spec z 0) as [->|Hz].
      - now exists 0. }
    destruct Hv0 as (z0 & Hv0 & Hold).
    assert (Hacc' : forall k1 v1,
               Charts.get k1 (Charts.set k0 (v0 +j Charts.hours e) acc)
               = Some v1 -> exists z, v1 = Js.Num z).
    { intros k1 v1. destruct (String.eqb_spec k0 k1) as [<-|Hne].
      - rewrite get_set_same. intros [= <-]. rewrite Hv0, Hhe.
        now exists (z0 + h).
      - rewrite (get_set_other _ _ _ _ Hne). apply Hacc. }
    rewrite (IH _ (fun x Hx => Hh x (or_intror Hx)) Hacc' Hm k).
    assert (Hin : Charts.inWeek tz k e = String.eqb k0 k)
      by (unfold Charts.inWeek; now rewrite Ek).
    cbn [filter existsb]. rewrite !Hin.
    destruct (String.eqb_spec k0 k) as [<-|Hne].
    + rewrite get_set_same. cbn [orb].
      destruct (Charts.get k0 acc) as [v|] eqn:Eg.
      * subst v. unfold Charts.sumFrom, Charts.hours. cbn [fold_left].
        now rewrite Hv0.
      * subst z0. unfold Charts.sumFrom, Charts.hours. cbn [fold_left].
        now rewrite Hv0.
    + rewrite (get_set_other _ _ _ _ Hne). reflexivity.
Qed.

End WeeklyMap.


(** Where every entry counts as a number of seconds, the week map has one
    row per week key that occurs, in no key twice, and the value of a key
    is the total of the entries of that week. *)
Theorem weeklyMap_sums_each_week :
  forall (tz : Z) (entries : list Page.TimeEntry) (m : Charts.dict),
    Charts.weeklyMap tz entries [] = Some m ->
    (forall e, In e entries -> exists h, Charts.hours e = Js.Num h) ->
    NoDup (map fst m)
    /\ (forall k, In k (map fst m)
                  <-> exists e, In e entries
                                /\ Charts.weekKey tz e = Some k)
    /\ (forall k, In k (map fst m) ->
                  Charts.get k m
                  = Some (Charts.totalSeconds
                            (filter (Charts.inWeek tz k) entries))).
Proof.
  intros tz entries m Hm Hh.
  pose proof (weeklyMap_get tz entries [] m Hh
                ltac:(intros k v; discriminate) Hm) as G.
  cbn [Charts.get] in G.
  assert (K : forall k, In k (map fst m)
                        <-> existsb (Charts.inWeek tz k) entries = true).
  { intros k. specialize (G k).
    destruct (existsb (Charts.inWeek tz k) entries).
    - split; [reflexivity|]. intros _.
      destruct (in_dec string_dec k (map fst m)) as [I|I]; [exact I|].
      apply get_None_keys in I. congruence.
    - split; [|discriminate]. intros I.
      apply get_None_keys in G. contradiction. }
  split; [|split].
  - apply (weeklyMap_NoDup tz entries [] m); [constructor|exact Hm].
  - intros k. rewrite K, existsb_exists. unfold Charts.inWeek.
    split; intros (e & He & Hk); exists e; (split; [exact He|]).
    + destruct (Charts.weekKey tz e) as [k'|]; [|discriminate].
      apply String.eqb_eq in Hk. now subst.
    + rewrite Hk. apply String.eqb_refl.
  - intros k Hk. rewrite G. apply K in Hk. now rewrite Hk.
Qed.

Lemma weeklyMap_sums_each_week_witness :
  Charts.get "2024-01-07"
    [("2023-12-31", Js.Num 3600); ("2024-01-07", Js.Num 3660)]
  = Some (Charts.totalSeconds
            (filter (Charts.inWeek 0 "2024-01-07")
               [Sample.entry "2023-12-31" 3600 None;
                Sample.entry "2024-01-07" 3600 None;
                Sample.entry "2024-01-10" 60 None])).
Proof.
  apply (weeklyMap_sums_each_week 0
           [Sample.entry "2023-12-31" 3600 None;
            Sample.entry "2024-01-07" 3600 None;
            Sample.entry "2024-01-10" 60 None]).
  - reflexivity.
  - intros e [<-|[<-|[<-|[]]]]; eexists; reflexivity.
  - right. left. reflexivity.
Defined.

Lemma sliceFrom_last8 {A : Type} (l : list A) :
  Js.sliceFrom (-8) l = skipn (List.length l - 8) l.
Proof.
  unfold Js.sliceFrom, Js.slice. cbn [Z.ltb Z.compare].
  destruct (Z.ltb_spec (Z.of_nat (List.length l)) 0) as [L|_]; [lia|].
  rewrite Z.min_id.
  replace (Z.to_nat (Z.max (Z.of_nat (List.length l) + -8) 0))
    with (List.length l - 8)%nat by lia.
  apply firstn_all2. rewrite length_skipn. lia.
Qed.

(** The weekly series has at most 8 rows; every row is one week of the
    week map, under its label and with its hours; and with at most 8 weeks
    in the map every week is in the series. *)
Theorem weeklyData_rows :
  forall (tz : Z) (entries : list Page.TimeEntry)
         (rows : list (string * Js.number)),
    Charts.weeklyData tz entries = Some rows ->
    exists m,
      Charts.weeklyMap tz entries [] = Some m
      /\ List.length rows = Nat.min 8 (List.length m)
      /\ (forall label h,
            In (label, h) rows ->
            exists week,
              In (week, h) m
              /\ label = Js.toLocaleDateString tz (Js.dateParse tz week))
      /\ ((List.length m <= 8)%nat ->
          Permutation rows
            (map (fun '(week, h) =>
                    (Js.toLocaleDateString tz (Js.dateParse tz week), h))
                 m)).
Proof.
  intros tz entries rows. unfold Charts.weeklyData.
  destruct (Charts.weeklyMap tz entries []) as [m|]; [|discriminate].
  intros [= <-]. exists m. split; [reflexivity|].
  rewrite sliceFrom_last8.
  set (labelled := map _ m).
  pose proof (sort_perm (Charts.byLabel tz) labelled) as P.
  assert (Hlen : List.length (Js.sort (Charts.byLabel tz) labelled)
                 = List.length m).
  { rewrite (Permutation_length P). apply length_map. }
  rewrite Hlen. split; [rewrite length_skipn; lia|]. split.
  - intros label h Hin.
    assert (Hin' : In (label, h) labelled).
    { apply (Permutation_in _ P).
      rewrite <- (firstn_skipn (List.length m - 8)
                    (Js.sort (Charts.byLabel tz) labelled)).
      apply in_or_app. now right. }
    apply in_map_iff in Hin'. destruct Hin' as ([week h'] & E & Hm).
    injection E as <- <-. now exists week.
  - intros Hle. replace (List.length m - 8)%nat with 0%nat by lia.
    exact P.
Qed.

Lemma weeklyData_rows_witness :
  exists m,
    Charts.weeklyMap 0 Sample.nineWeeks [] = Some m
    /\ 8%nat = Nat.min 8 (List.length m).
Proof.
  destruct (weeklyData_rows 0 Sample.nineWeeks
              [("Nov 12", Js.Num 3600); ("Nov 19", Js.Num 3600);
               ("Nov 26", Js.Num 3600); ("Dec 3", Js.Num 3600);
               ("Dec 10", Js.Num 3600); ("Dec 17", Js.Num 3600);
               ("Dec 24", Js.Num 3600); ("Dec 31", Js.Num 3600)]
              eq_refl) as (m & Hm & Hlen & _).
  exists m. split; [exact Hm|exact Hlen].
Defined.

(* ===================================================================== *)
(** * The entry store *)
(* ===================================================================== *)

Lemma map_unchanged {A : Type} (f : A -> A) (l : list A) :
  (forall x, In x l -> f x = x) -> map f l = l.
Proof.
  intros H. rewrite <- (map_id l) at 2. now apply map_ext_in.
Qed.

Lemma filter_unchanged {A : Type} (f : A -> bool) (l : list A) :
  (forall x, In x l -> f x = true) -> filter f l = l.
Proof.
  induction l as [|x l IH]; intros H; simpl; [reflexivity|].
  rewrite (H x (or_introl eq_refl)). f_equal.
  apply IH. intros y Hy. apply H. now right.
Qed.

(** A history edit keeps the number and order of the durable entries and
    every field but [editedDuration]: the measured [duration] is never
    overwritten.  It sets [editedDuration] on the entries with the id of
    the edited entry, leaves the others as they were, and changes nothing
    at all when no durable entry has that id. *)
Theorem handleUpdateEntry_keeps_measured_duration :
  forall (editing : Page.TimeEntry) (h m s : string) (st : Page.State),
    Page.projects (History.handleUpdateEntry (Some editing) h m s st)
    = Page.projects st
    /\ Page.currentEntry (History.handleUpdateEntry (Some editing) h m s st)
       = Page.currentEntry st
    /\ map (fun e => (Page.id e, Page.projectId e, Page.projectName e,
                      Page.startTime e, Page.endTime e, Page.duration e,
                      Page.date e, Page.isRunning e))
           (Page.timeEntries
              (History.handleUpdateEntry (Some editing) h m s st))
       = map (fun e => (Page.id e, Page.projectId e, Page.projectName e,
                        Page.startTime e, Page.endTime e, Page.duration e,
                        Page.date e, Page.isRunning e))
             (Page.timeEntries st)
    /\ map Page.editedDuration
           (Page.timeEntries
              (History.handleUpdateEntry (Some editing) h m s st))
       = map (fun e => if String.eqb (Page.id e) (Page.id editing)
                       then Some (History.editTotalSeconds h m s)
                       else Page.editedDuration e)
             (Page.timeEntries st)
    /\ ((forall e, In e (Page.timeEntries st) ->
                   Page.id e <> Page.id editing) ->
        History.handleUpdateEntry (Some editing) h m s st = st).
Proof.
  intros editing h m s st. unfold History.handleUpdateEntry.
  unfold Page.updateTimeEntry.
  cbn [Page.projects Page.currentEntry Page.timeEntries].
  split; [reflexivity|]. split; [reflexivity|].
  rewrite !map_map. split; [|split].
  - apply map_ext. intros e. now destruct (String.eqb (Page.id e) _).
  - apply map_ext. intros e. now destruct (String.eqb (Page.id e) _).
  - intros Hno. destruct st as [ps es cur]. cbn in *. f_equal.
    apply map_unchanged. intros e He.
    now rewrite (proj2 (String.eqb_neq _ _) (Hno e He)).
Qed.

Lemma handleUpdateEntry_keeps_measured_duration_witness :
  History.handleUpdateEntry (Some (Sample.entry "2024-01-05" 60 None))
    "0" "2" "0" Sample.state = Sample.state.
Proof.
  apply (handleUpdateEntry_keeps_measured_duration
           (Sample.entry "2024-01-05" 60 None) "0" "2" "0" Sample.state).
  intros e [].
Defined.

(** Deleting a time entry, once confirmed, removes the durable entries
    with that id and keeps all the others, in their order and unchanged;
    projects and current session are untouched.  Not confirmed, or with an
    id no durable entry has, it changes nothing. *)
Theorem handleDeleteEntry_removes_by_id :
  forall (confirmed : bool) (eid : string) (st : Page.State),
    Page.projects (History.handleDeleteEntry confirmed eid st)
    = Page.projects st
    /\ Page.currentEntry (History.handleDeleteEntry confirmed eid st)
       = Page.currentEntry st
    /\ Page.timeEntries (History.handleDeleteEntry true eid st)
       = filter (fun e => negb (String.eqb (Page.id e) eid))
                (Page.timeEntries st)
    /\ (forall e, In e (Page.timeEntries (History.handleDeleteEntry true eid st))
                  <-> In e (Page.timeEntries st) /\ Page.id e <> eid)
    /\ History.handleDeleteEntry false eid st = st
    /\ ((forall e, In e (Page.timeEntries st) -> Page.id e <> eid) ->
        History.handleDeleteEntry confirmed eid st = st).
Proof.
  intros confirmed eid st.
  split; [now destruct confirmed|]. split; [now destruct confirmed|].
  split; [reflexivity|]. split; [|split; [reflexivity|]].
  - intros e. cbn. rewrite filter_In, negb_true_iff.
    now rewrite String.eqb_neq.
  - intros Hno. destruct confirmed; [|reflexivity].
    destruct st as [ps es cur]. unfold History.handleDeleteEntry,
      Page.deleteTimeEntry. cbn in *. f_equal.
    apply filter_unchanged. intros e He.
    now rewrite (proj2 (String.eqb_neq _ _) (Hno e He)).
Qed.

Lemma handleDeleteEntry_removes_by_id_witness :
  History.handleDeleteEntry true "none" Sample.dangling = Sample.dangling.
Proof.
  apply (handleDeleteEntry_removes_by_id true "none" Sample.dangling).
  intros e [<-|[]]. discriminate.
Defined.

(* ===================================================================== *)
(** * The colour of the project of an entry *)
(* ===================================================================== *)

Lemma find_filter_other (pid pid' : string) (ps : list Page.Project) :
  pid' <> pid ->
  find (fun p => String.eqb (Page.p_id p) pid')
       (filter (fun p => negb (String.eqb (Page.p_id p) pid)) ps)
  = find (fun p => String.eqb (Page.p_id p) pid') ps.
Proof.
  intros Hne. induction ps as [|p ps IH]; simpl; [reflexivity|].
  destruct (String.eqb_spec (Page.p_id p) pid) as [E|E]; simpl.
  - destruct (String.eqb_spec (Page.p_id p) pid') as [E'|E'];
      [congruence|exact IH].
  - now rewrite IH.
Qed.

Lemma find_filter_same (pid : string) (ps : list Page.Project) :
  find (fun p => String.eqb (Page.p_id p) pid)
       (filter (fun p => negb (String.eqb (Page.p_id p) pid)) ps) = None.
Proof.
  induction ps as [|p ps IH]; simpl; [reflexivity|].
  destruct (String.eqb_spec (Page.p_id p) pid) as [E|E]; simpl; [exact IH|].
  now rewrite (proj2 (String.eqb_neq _ _) E).
Qed.

(** After a project is deleted, the entries that refer to it are shown in
    the fallback colour, and the colour of every other project is what it
    was. *)
Theorem deleted_project_gets_fallback_color :
  forall (pid : string) (st : Page.State),
    History.getProjectColor (Page.projects (Page.deleteProject pid st)) pid
    = "#6B7280"
    /\ forall pid', pid' <> pid ->
         History.getProjectColor (Page.projects (Page.deleteProject pid st))
                                 pid'
         = History.getProjectColor (Page.projects st) pid'.
Proof.
  intros pid st. unfold History.getProjectColor. cbn [Page.deleteProject
    Page.projects]. split.
  - now rewrite find_filter_same.
  - intros pid' Hne. now rewrite (find_filter_other pid pid' _ Hne).
Qed.

Lemma deleted_project_gets_fallback_color_witness :
  History.getProjectColor (Page.projects (Page.deleteProject "2" Sample.state))
                          "1"
  = History.getProjectColor (Page.projects Sample.state) "1".
Proof.
  apply (deleted_project_gets_fallback_color "2" Sample.state). discriminate.
Defined.

Lemma find_updated (pid pid' name color : string) (ps : list Page.Project) :
  find (fun p => String.eqb (Page.p_id p) pid')
       (map (fun p => if String.eqb (Page.p_id p) pid
                      then Page.withNameColor p name color else p) ps)
  = option_map (fun p => if String.eqb (Page.p_id p) pid
                         then Page.withNameColor p name color else p)
               (find (fun p => String.eqb (Page.p_id p) pid') ps).
Proof.
  induction ps as [|p ps IH]; simpl; [reflexivity|].
  destruct (String.eqb (Page.p_id p) pid) eqn:E1; simpl;
    destruct (String.eqb (Page.p_id p) pid') eqn:E2; simpl;
    rewrite ?E1; trivial.
Qed.

(** After a project is updated with a colour that is not empty, the
    entries of that project are shown in the new colour when the project
    exists (in the fallback colour otherwise), and the colour of every
    other project is what it was. *)
Theorem updated_project_color :
  forall (pid name color : string) (st : Page.State),
    color <> "" ->
    (In pid (map Page.p_id (Page.projects st)) ->
     History.getProjectColor
       (Page.projects (Page.updateProject pid name color st)) pid = color)
    /\ (~ In pid (map Page.p_id (Page.projects st)) ->
        History.getProjectColor
          (Page.projects (Page.updateProject pid name color st)) pid
        = "#6B7280")
    /\ forall pid', pid' <> pid ->
         History.getProjectColor
           (Page.projects (Page.updateProject pid name color st)) pid'
         = History.getProjectColor (Page.projects st) pid'.
Proof.
  intros pid name color st Hc. unfold History.getProjectColor.
  cbn [Page.updateProject Page.projects]. rewrite !find_updated.
  split; [|split].
  - intros Hin. destruct (find_existing_project pid _ Hin) as (p & Hf & Hp).
    rewrite Hf. cbn [option_map].
    rewrite (proj2 (String.eqb_eq _ _) Hp). cbn [Page.withNameColor
      Page.p_color]. destruct color; [now elim Hc|reflexivity].
  - intros Hno.
    destruct (find (fun p => String.eqb (Page.p_id p) pid) (Page.projects st))
      as [p|] eqn:Hf; [|reflexivity].
    exfalso. apply Hno. apply find_some in Hf. destruct Hf as [Hin Hp].
    apply String.eqb_eq in Hp. subst pid. now apply in_map.
  - intros pid' Hne. intros.
    rewrite find_updated.
    destruct (find (fun p => String.eqb (Page.p_id p) pid') (Page.projects st))
      as [p|] eqn:Hf; [|reflexivity].
    cbn [option_map]. apply find_some in Hf. destruct Hf as [_ Hp].
    apply String.eqb_eq in Hp.
    destruct (String.eqb_spec (Page.p_id p) pid) as [E|E];
      [congruence|reflexivity].
Qed.

Lemma updated_project_color_witness :
  History.getProjectColor
    (Page.projects (Page.updateProject "1" "Branding" "#EF4444" Sample.state))
    "1" = "#EF4444".
Proof.
  apply (updated_project_color "1" "Branding" "#EF4444" Sample.state).
  - discriminate.
  - left. reflexivity.
Defined.

(* ===================================================================== *)
(** * The pages of the history *)
(* ===================================================================== *)

Lemma paginatedEntries_block (filtered : list Page.TimeEntry) (k : Z) :
  1 <= k ->
  History.paginatedEntries filtered k
  = firstn 10 (skipn (Z.to_nat (k - 1) * 10) filtered).
Proof.
  intros Hk. unfold History.paginatedEntries, History.itemsPerPage.
  rewrite <- slice_block. f_equal; lia.
Qed.

(** A page between 1 and the number of pages is not empty, and it holds as
    many entries as the line "Showing a to b of n entries" announces,
    starting with entry number a; a page past the last one is
    empty, also when the list is not (the page is kept when the filters
    change). *)
Theorem page_matches_showing_line :
  forall (filtered : list Page.TimeEntry) (k : Z),
    (1 <= k <= History.totalPages filtered ->
     History.paginatedEntries filtered k <> []
     /\ Z.of_nat (List.length (History.paginatedEntries filtered k))
        = History.showingTo filtered k - History.showingFrom k + 1
     /\ (forall i : nat,
           nth_error (History.paginatedEntries filtered k) i
           = if (i <? 10)%nat
             then nth_error filtered
                    (Z.to_nat (History.showingFrom k - 1) + i)
             else None))
    /\ (History.totalPages filtered < k ->
        History.paginatedEntries filtered k = []).
Proof.
  intros filtered k.
  pose proof (totalPages_bounds filtered) as B.
  unfold History.showingTo, History.showingFrom, History.itemsPerPage.
  split.
  - intros Hk. rewrite (paginatedEntries_block filtered k) by lia.
    assert (Hlen : List.length
                     (firstn 10 (skipn (Z.to_nat (k - 1) * 10) filtered))
                   = Nat.min 10 (List.length filtered
                                 - Z.to_nat (k - 1) * 10))
      by (now rewrite length_firstn, length_skipn).
    split; [|split].
    + intros E. rewrite E in Hlen. cbn [List.length] in Hlen. lia.
    + rewrite Hlen. lia.
    + intros i. destruct (Nat.ltb_spec i 10) as [L|L].
      * rewrite nth_error_firstn.
        destruct (Nat.ltb_spec i 10) as [_|L']; [|lia].
        rewrite nth_error_skipn. f_equal. lia.
      * apply nth_error_None. rewrite length_firstn. lia.
  - intros Hk. rewrite (paginatedEntries_block filtered k) by lia.
    rewrite skipn_all2 by lia. apply firstn_nil.
Qed.

Lemma page_matches_showing_line_witness :
  History.paginatedEntries Sample.nineWeeks 2 = [].
Proof.
  apply (page_matches_showing_line Sample.nineWeeks 2). reflexivity.
Defined.

(** From a page between 1 and the number of pages, the Previous and Next
    buttons lead to such a page again, and so does every numbered
    button. *)
Theorem page_buttons_stay_in_range :
  forall (filtered : list Page.TimeEntry) (k : Z),
    1 <= k <= History.totalPages filtered ->
    1 <= History.previousPage k <= History.totalPages filtered
    /\ 1 <= History.nextPage filtered k <= History.totalPages filtered
    /\ forall b, In b (History.pageButtons filtered) ->
                 1 <= b <= History.totalPages filtered.
Proof.
  intros filtered k Hk. unfold History.previousPage, History.nextPage.
  split; [destruct (Z.eqb_spec k 1); lia|].
  split; [destruct (Z.eqb_spec k (History.totalPages filtered)); lia|].
  intros b Hb. unfold History.pageButtons, History.pageNumbers in Hb.
  apply in_map_iff in Hb. destruct Hb as (i & <- & Hi).
  apply in_seq in Hi. lia.
Qed.

Lemma page_buttons_stay_in_range_witness :
  1 <= History.nextPage Sample.nineWeeks 1
  <= History.totalPages Sample.nineWeeks.
Proof.
  assert (H : 1 <= 1 <= History.totalPages Sample.nineWeeks)
    by (vm_compute; split; discriminate).
  exact (proj1 (proj2 (page_buttons_stay_in_range Sample.nineWeeks 1 H))).
Defined.

(* ===================================================================== *)
(** * Numbers written and read back *)
(* ===================================================================== *)

Ltac eval_digit :=
  match goal with
  | |- context [Js.digitOf 10 ?c] =>
      let v := eval vm_compute in (Js.digitOf 10 c) in
      change (Js.digitOf 10 c) with v
  end.

Lemma digitsPrefix_uint (d : Decimal.uint) (acc : Z) :
  Js.digitsPrefix 10 (NilEmpty.string_of_uint d) (Some acc)
  = Some (Js.decimalValue d acc).
Proof.
  revert acc.
  induction d as [|d IH|d IH|d IH|d IH|d IH|d IH|d IH|d IH|d IH|d IH];
    intros acc;
    cbn [NilEmpty.string_of_uint Js.digitsPrefix Js.decimalValue];
    [reflexivity|..]; eval_digit; cbv iota; apply IH.
Qed.

Lemma decimalValue_pos (d : Decimal.uint) (p : positive) :
  Js.decimalValue d (Z.pos p) = Z.pos (Pos.of_uint_acc d p).
Proof.
  revert p.
  induction d as [|d IH|d IH|d IH|d IH|d IH|d IH|d IH|d IH|d IH|d IH];
    intros p; cbn [Js.decimalValue Pos.of_uint_acc]; [reflexivity|..];
    rewrite <- IH; f_equal; lia.
Qed.

Lemma decimalValue_zero (d : Decimal.uint) :
  Js.decimalValue d 0 = Z.of_N (Pos.of_uint d).
Proof.
  induction d as [|d IH|d IH|d IH|d IH|d IH|d IH|d IH|d IH|d IH|d IH];
    cbn [Js.decimalValue Pos.of_uint]; [reflexivity|exact IH|..];
    cbn [Z.mul Z.add Z.of_N]; apply decimalValue_pos.
Qed.

Lemma digitsPrefix_start (d : Decimal.uint) :
  d <> Decimal.Nil ->
  Js.digitsPrefix 10 (NilEmpty.string_of_uint d) None
  = Some (Js.decimalValue d 0).
Proof.
  destruct d; intros H; [now elim H|..];
    cbn [NilEmpty.string_of_uint Js.digitsPrefix Js.decimalValue];
    eval_digit; cbv iota; apply digitsPrefix_uint.
Qed.

(** [parseInt] on a string that starts with neither white space, nor a
    sign, nor a hexadecimal prefix, and on such a string after a minus
    sign. *)
Lemma parseInt_plain (s : string) :
  Js.trimStart s = s ->
  match s with
  | String "-" rest => False
  | String "+" rest => False
  | String "0" (String "x" rest) => False
  | String "0" (String "X" rest) => False
  | _ => True
  end ->
  Js.parseInt s
  = match Js.digitsPrefix 10 s None with
    | Some v => Js.Num (1 * v)
    | None => Js.NaN
    end
  /\ Js.parseInt (String "-" s)
     = match Js.digitsPrefix 10 s None with
       | Some v => Js.Num (-1 * v)
       | None => Js.NaN
       end.
Proof.
  intros Ht Hs. unfold Js.parseInt.
  change (Js.trimStart (String "-" s)) with (String "-" s). rewrite Ht.
  destruct s as [|c1 r]; [split; reflexivity|].
  destruct c1 as [[|] [|] [|] [|] [|] [|] [|] [|]];
    try (split; reflexivity); try contradiction.
  destruct r as [|c2 r]; [split; reflexivity|].
  destruct c2 as [[|] [|] [|] [|] [|] [|] [|] [|]];
    try (split; reflexivity); contradiction.
Qed.

Lemma parseInt_uint (d : Decimal.uint) :
  d <> Decimal.Nil ->
  Js.parseInt (NilEmpty.string_of_uint d) = Js.Num (Js.decimalValue d 0)
  /\ Js.parseInt (String "-" (NilEmpty.string_of_uint d))
     = Js.Num (- Js.decimalValue d 0).
Proof.
  intros H. pose proof (digitsPrefix_start d H) as P.
  assert (K : Js.trimStart (NilEmpty.string_of_uint d)
              = NilEmpty.string_of_uint d
              /\ match NilEmpty.string_of_uint d with
                 | String "-" rest => False
                 | String "+" rest => False
                 | String "0" (String "x" rest) => False
                 | String "0" (String "X" rest) => False
                 | _ => True
                 end).
  { destruct d as [|r|r|r|r|r|r|r|r|r|r]; [now elim H|..];
      try (split; exact I || reflexivity).
    destruct r; split; exact I || reflexivity. }
  destruct (parseInt_plain _ (proj1 K) (proj2 K)) as [E1 E2].
  rewrite E1, E2, P. split; f_equal; lia.
Qed.

Lemma string_of_uint_nonnil (d : Decimal.uint) :
  d <> Decimal.Nil ->
  NilZero.string_of_uint d = NilEmpty.string_of_uint d.
Proof. destruct d; intros H; [now elim H|reflexivity..]. Qed.

(** A number written by [toString] is read back by [parseInt]. *)
Lemma parseInt_toString (z : Z) : Js.parseInt (Js.toString z) = Js.Num z.
Proof.
  unfold Js.toString, Z.to_int. destruct z as [|p|p].
  - reflexivity.
  - cbn [NilZero.string_of_int].
    pose proof (Unsigned.to_uint_nonnil p) as Hn.
    rewrite (string_of_uint_nonnil _ Hn), (proj1 (parseInt_uint _ Hn)).
    now rewrite decimalValue_zero, Unsigned.of_to.
  - cbn [NilZero.string_of_int].
    pose proof (Unsigned.to_uint_nonnil p) as Hn.
    rewrite (string_of_uint_nonnil _ Hn), (proj2 (parseInt_uint _ Hn)).
    now rewrite decimalValue_zero, Unsigned.of_to.
Qed.

Lemma toString_inj (a b : Z) : Js.toString a = Js.toString b -> a = b.
Proof.
  intros H. apply (f_equal Js.parseInt) in H.
  rewrite !parseInt_toString in H. congruence.
Qed.

(* ===================================================================== *)
(** * The edit dialogs *)
(* ===================================================================== *)

(** The three fields a dialog is opened with, for a time that is not
    negative, give the time back. *)
Lemma fields_read_back (t : Z) :
  0 <= t ->
  Timer.editTotalSeconds (Js.toString (t / 3600))
    (Js.toString (Z.rem t 3600 / 60)) (Js.toString (Z.rem t 60))
  = Js.Num t.
Proof.
  intros Ht. unfold Timer.editTotalSeconds.
  rewrite !parseInt_toString. cbn [Js.mul Js.add]. f_equal.
  rewrite !Z.rem_mod_nonneg by lia.
  Z.to_euclidean_division_equations; lia.
Qed.

(** Opening an edit dialog and confirming it with its fields untouched
    stores the time the dialog was opened for, when that time is a number
    of seconds that is not negative: in the timer, for the staged entry;
    in the history, for the durable entries with the id of the edited
    one. *)
Theorem edit_dialog_round_trip :
  forall (st : Page.State) (e : Page.TimeEntry) (t : Z),
    Js.orElse (Page.editedDuration e) (Page.duration e) = Js.Num t ->
    0 <= t ->
    (Page.currentEntry st = Some e ->
     forall h m s,
       Timer.openEditDialog st = (h, m, s) ->
       Page.currentEntry (Timer.handleEditTime h m s st)
       = Some (Page.withEditedDuration e (Js.Num t)))
    /\ (forall h m s,
          History.handleEditEntry e = (h, m, s) ->
          Page.timeEntries (History.handleUpdateEntry (Some e) h m s st)
          = map (fun entry =>
                   if String.eqb (Page.id entry) (Page.id e)
                   then Page.withEditedDuration entry (Js.Num t)
                   else entry)
                (Page.timeEntries st)).
Proof.
  intros st e t Ht Hpos. split.
  - intros Hcur h m s. unfold Timer.openEditDialog, Timer.handleEditTime.
    rewrite Hcur, Ht.
    replace (if Js.truthy (Js.Num t) then Js.Num t else Js.Num 0)
      with (Js.Num t)
      by (simpl; now destruct (Z.eqb_spec t 0) as [->|]).
    cbn [Js.floorDiv Js.remBy Js.numberToString]. intros [= <- <- <-].
    now rewrite fields_read_back.
  - intros h m s. unfold History.handleEditEntry. rewrite Ht.
    cbn [Js.floorDiv Js.remBy Js.numberToString]. intros [= <- <- <-].
    unfold History.handleUpdateEntry, Page.updateTimeEntry.
    cbn [Page.timeEntries]. rewrite editTotalSeconds_same.
    now rewrite fields_read_back.
Qed.

Lemma edit_dialog_round_trip_witness :
  Page.currentEntry
    (Timer.handleEditTime "0" "0" "10" Sample.state)
  = Some (Page.withEditedDuration
            (Page.mkTimeEntry "1704067200000" "1" "Design"
               "2024-01-01T00:00:00.000Z" (Some "2024-01-01T00:00:10.000Z")
               (Js.Num 10) "2024-01-01" false None)
            (Js.Num 10)).
Proof.
  apply (proj1 (edit_dialog_round_trip Sample.state
                  (Page.mkTimeEntry "1704067200000" "1" "Design"
                     "2024-01-01T00:00:00.000Z"
                     (Some "2024-01-01T00:00:10.000Z")
                     (Js.Num 10) "2024-01-01" false None)
                  10 eq_refl ltac:(lia)) eq_refl "0" "0" "10" eq_refl).
Defined.

(* ===================================================================== *)
(** * Identifiers *)
(* ===================================================================== *)

(** Identifiers are the clock reading written in decimal: two projects
    added one after the other share their id exactly when they were added
    at the same clock reading, and so do the entries two timer starts
    create. *)
Theorem ids_follow_the_clock :
  forall (n1 c1 n2 c2 : Z) (name1 color1 name2 color2 : string)
         (st : Page.State),
    (exists p1 p2,
       Page.projects
         (Page.addProject n2 c2 name2 color2
            (Page.addProject n1 c1 name1 color1 st))
       = (Page.projects st ++ [p1; p2])%list
       /\ (Page.p_id p1 = Page.p_id p2 <-> n1 = n2))
    /\ (forall (s1 d1 s2 d2 : Z) (pid : string) (e1 e2 : Page.TimeEntry),
          Page.currentEntry (Page.startTimer n1 s1 d1 pid st) = Some e1 ->
          Page.currentEntry (Page.startTimer n2 s2 d2 pid st) = Some e2 ->
          In pid (map Page.p_id (Page.projects st)) ->
          (Page.id e1 = Page.id e2 <-> n1 = n2)).
Proof.
  intros n1 c1 n2 c2 name1 color1 name2 color2 st. split.
  - eexists. eexists. split.
    + cbn [Page.addProject Page.projects]. rewrite <- app_assoc.
      reflexivity.
    + cbn [Page.p_id]. split; [apply toString_inj|congruence].
  - intros s1 d1 s2 d2 pid e1 e2 H1 H2 Hin.
    destruct (find_existing_project pid _ Hin) as (p & Hf & _).
    unfold Page.startTimer in H1, H2. rewrite Hf in H1, H2.
    cbn [Page.currentEntry] in H1, H2.
    injection H1 as <-. injection H2 as <-. cbn [Page.id].
    split; [apply toString_inj|congruence].
Qed.

Lemma ids_follow_the_clock_witness :
  exists p1 p2,
    Page.projects
      (Page.addProject 7 7 "B" "#10B981"
         (Page.addProject 7 7 "A" "#3B82F6" Sample.state))
    = (Page.projects Sample.state ++ [p1; p2])%list
    /\ (Page.p_id p1 = Page.p_id p2 <-> 7 = 7).
Proof.
  exact (proj1 (ids_follow_the_clock 7 7 7 7 "A" "#3B82F6" "B" "#10B981"
                  Sample.state)).
Defined.

(* ===================================================================== *)
(** * Trimmed names *)
(* ===================================================================== *)

Lemma trimEnd_cons (c : ascii) (r : string) :
  Js.trimEnd (String c r)
  = match Js.trimEnd r with
    | EmptyString => if Js.isWhite c then EmptyString else String c EmptyString
    | kept => String c kept
    end.
Proof. reflexivity. Qed.

Lemma trimEnd_idem (s : string) : Js.trimEnd (Js.trimEnd s) = Js.trimEnd s.
Proof.
  induction s as [|c r IH]; [reflexivity|].
  rewrite trimEnd_cons. destruct (Js.trimEnd r) as [|a b] eqn:E.
  - destruct (Js.isWhite c) eqn:W; [reflexivity|].
    rewrite trimEnd_cons. cbn [Js.trimEnd]. now rewrite W.
  - rewrite trimEnd_cons, IH. reflexivity.
Qed.

Lemma trimStart_head (s : string) :
  match Js.trimStart s with
  | EmptyString => True
  | String c _ => Js.isWhite c = false
  end.
Proof.
  induction s as [|c r IH]; [exact I|].
  cbn [Js.trimStart]. destruct (Js.isWhite c) eqn:W; [exact IH|exact W].
Qed.

Lemma trimStart_trimEnd (s : string) :
  match s with
  | EmptyString => True
  | String c _ => Js.isWhite c = false
  end ->
  Js.trimStart (Js.trimEnd s) = Js.trimEnd s.
Proof.
  destruct s as [|c r]; [reflexivity|]. intros W.
  rewrite trimEnd_cons. destruct (Js.trimEnd r); rewrite ?W;
    cbn [Js.trimStart]; now rewrite W.
Qed.

Lemma trim_idem (s : string) : Js.trim (Js.trim s) = Js.trim s.
Proof.
  unfold Js.trim.
  rewrite (trimStart_trimEnd _ (trimStart_head s)). apply trimEnd_idem.
Qed.

Lemma nonEmpty_true (s : string) : Js.nonEmpty s = true <-> s <> "".
Proof. destruct s; simpl; split; congruence. Qed.

(* ===================================================================== *)
(** * States the user interface can reach *)
(* ===================================================================== *)

Lemma step_wellFormed (tz : Z) (a : App.action) (st : Page.State) :
  App.wellFormed st -> App.wellFormed (App.step tz a st).
Proof.
  intros H. destruct st as [ps es cur]. pose proof H as (Hd & Hc & Hn).
  cbn [Page.timeEntries Page.currentEntry Page.projects] in Hd, Hc, Hn.
  destruct a as [nowId nowStart nowDate sel|now| |h m s|editing h m s
                |confirmed eid|nowId nowCreated ls|ls|confirmed pid];
    cbn [App.step].
  - (* Start *)
    unfold Timer.handleStart.
    destruct (Js.nonEmpty sel && negb (Timer.running _));
      [|exact H].
    unfold Page.startTimer. cbn [Page.projects].
    destruct (find _ ps); [|exact H].
    split; [exact Hd|]. split; [|exact Hn].
    intros c [= <-]. now cbn.
  - (* Stop *)
    unfold Timer.handleStop, Timer.running. cbn [Page.currentEntry].
    destruct cur as [c|]; [|exact H].
    destruct (Page.isRunning c) eqn:R; [|exact H].
    unfold Page.stopTimer. cbn [Page.currentEntry].
    split; [exact Hd|]. split; [|exact Hn].
    intros c' [= <-]. cbn. discriminate.
  - (* Save *)
    unfold Timer.handleSave. cbn [Page.currentEntry].
    destruct cur as [c|]; [|exact H].
    destruct (Page.isRunning c) eqn:R; cbn [negb]; [exact H|].
    specialize (Hc c eq_refl). rewrite R in Hc.
    unfold Page.saveEntry.
    split; [|split]; cbn [Page.timeEntries Page.currentEntry Page.projects].
    + intros e He. apply in_app_or in He. destruct He as [He|[<-|[]]];
        [now apply Hd|now split].
    + discriminate.
    + exact Hn.
  - (* EditTime *)
    unfold Timer.sessionOf. cbn [Page.currentEntry].
    destruct cur as [c|]; [|exact H].
    destruct (Page.isRunning c) eqn:R; [exact H|].
    unfold Timer.handleEditTime, Page.setCurrentEntry.
    cbn [Page.currentEntry Page.projects Page.timeEntries].
    specialize (Hc c eq_refl). rewrite R in Hc.
    split; [exact Hd|]. split; [|exact Hn].
    intros c' [= <-]. cbn. now rewrite R.
  - (* UpdateEntry *)
    unfold History.handleUpdateEntry, Page.updateTimeEntry.
    cbn [Page.currentEntry Page.projects Page.timeEntries].
    split; [|now split].
    intros e He. apply in_map_iff in He. destruct He as (x & <- & Hx).
    destruct (String.eqb (Page.id x) (Page.id editing));
      cbn [Page.withEditedDuration Page.isRunning Page.endTime];
      now apply Hd.
  - (* DeleteEntry *)
    unfold History.handleDeleteEntry. destruct confirmed; [|exact H].
    unfold Page.deleteTimeEntry.
    cbn [Page.currentEntry Page.projects Page.timeEntries].
    split; [|now split].
    intros e He. apply filter_In in He. now apply Hd.
  - (* AddProject *)
    unfold ProjectSelector.handleAddProject.
    destruct (Js.nonEmpty (Js.trim (ProjectSelector.newProjectName ls)))
      eqn:E; cbn [snd]; [|exact H].
    unfold Page.addProject.
    cbn [Page.currentEntry Page.projects Page.timeEntries].
    split; [exact Hd|]. split; [exact Hc|].
    intros p Hp. apply in_app_or in Hp. destruct Hp as [Hp|[<-|[]]];
      [now apply Hn|]. cbn [Page.p_name].
    split; [now apply nonEmpty_true|apply trim_idem].
  - (* UpdateProject *)
    unfold ProjectSelector.handleUpdateProject.
    destruct (ProjectSelector.editingProject ls) as [project|];
      cbn [snd]; [|exact H].
    destruct (Js.nonEmpty (Js.trim (ProjectSelector.editProjectName ls)))
      eqn:E; cbn [snd]; [|exact H].
    unfold Page.updateProject.
    cbn [Page.currentEntry Page.projects Page.timeEntries].
    split; [|split; [exact Hc|]].
    + intros e He. apply in_map_iff in He. destruct He as (x & <- & Hx).
      unfold Page.renamed.
      destruct (String.eqb (Page.projectId x) (Page.p_id project));
        cbn [Page.withProjectName Page.isRunning Page.endTime];
        now apply Hd.
    + intros p Hp. apply in_map_iff in Hp. destruct Hp as (x & <- & Hx).
      destruct (String.eqb (Page.p_id x) (Page.p_id project));
        [|now apply Hn]. cbn [Page.withNameColor Page.p_name].
      split; [now apply nonEmpty_true|apply trim_idem].
  - (* DeleteProject *)
    unfold ProjectSelector.handleDeleteProject.
    destruct confirmed; [|exact H].
    unfold Page.deleteProject.
    cbn [Page.currentEntry Page.projects Page.timeEntries].
    split; [exact Hd|]. split; [exact Hc|].
    intros p Hp. apply filter_In in Hp. now apply Hn.
Qed.

(** Whatever the user clicks, in whatever order, a state without
    contradictions stays so: the durable store never holds a running
    entry or an entry without end time, a running entry is never edited or
    ended, and no project gets an empty name or a name with white space
    around it. *)
Theorem ui_events_keep_state_wellFormed :
  forall (tz : Z) (actions : list App.action) (st : Page.State),
    App.wellFormed st -> App.wellFormed (App.run tz actions st).
Proof.
  intros tz actions. unfold App.run.
  induction actions as [|a actions IH]; intros st H; [exact H|].
  cbn [fold_left]. apply IH. now apply step_wellFormed.
Qed.

Lemma ui_events_keep_state_wellFormed_witness :
  App.wellFormed
    (App.run 0
       [App.Start 1704067200000 1704067200000 1704067200000 "1";
        App.EditTime "9" "9" "9";
        App.Stop 1704067290000;
        App.Save]
       (Page.mkState
          [Page.mkProject "1" "Design" "#3B82F6" "2024-01-01T00:00:00.000Z"]
          [] None)).
Proof.
  apply ui_events_keep_state_wellFormed. split; [|split].
  - intros e [].
  - intros cur H. discriminate H.
  - intros p [<-|[]]. split; [discriminate|reflexivity].
Defined.

(* ===================================================================== *)
(** * The running clock and the stored duration *)
(* ===================================================================== *)

(** Stopping a running timer at a clock reading in the years 0000-9999
    stores as duration the elapsed time the display computes for that
    reading; with no edited duration on the entry, that is also the time
    shown for the stopped entry, unless it is 0 or not a number. *)
Theorem stop_stores_elapsed_time :
  forall (tz now : Z) (st : Page.State) (cur : Page.TimeEntry),
    Page.currentEntry st = Some cur ->
    Page.isRunning cur = true ->
    -62167219200000 <= now <= 253402300799999 ->
    exists e',
      Page.currentEntry (Timer.handleStop tz now st) = Some e'
      /\ Page.duration e' = Timer.elapsed tz now cur
      /\ (Page.editedDuration cur = None ->
          Timer.shownTime e' = Timer.elapsed tz now cur).
Proof.
  intros tz now st cur Hcur Hrun Hnow.
  unfold Timer.handleStop, Timer.running. rewrite Hcur, Hrun.
  unfold Page.stopTimer. rewrite Hcur. eexists. split; [reflexivity|].
  unfold Timer.elapsed, Timer.shownTime.
  cbn [Page.stopped Page.duration Page.editedDuration].
  rewrite (dateParse_isoString tz now Hnow). split; [reflexivity|].
  intros ->. reflexivity.
Qed.

Lemma stop_stores_elapsed_time_witness :
  exists e',
    Page.currentEntry
      (Timer.handleStop 0 1704067290000
         (Page.startTimer 1704067200000 1704067200000 1704067200000 "1"
            Sample.state)) = Some e'
    /\ Page.duration e'
       = Timer.elapsed 0 1704067290000
           (Page.mkTimeEntry "1704067200000" "1" "Design"
              "2024-01-01T00:00:00.000Z" None (Js.Num 0) "2024-01-01"
              true None).
Proof.
  destruct (stop_stores_elapsed_time 0 1704067290000
              (Page.startTimer 1704067200000 1704067200000 1704067200000 "1"
                 Sample.state)
              (Page.mkTimeEntry "1704067200000" "1" "Design"
                 "2024-01-01T00:00:00.000Z" None (Js.Num 0) "2024-01-01"
                 true None) eq_refl eq_refl ltac:(lia))
    as (e' & H1 & H2 & _).
  exists e'. split; [exact H1|exact H2].
Defined.

(* ===================================================================== *)
(** * A whole session *)
(* ===================================================================== *)

(** With no timer running, a project selected that exists, clock readings
    in the years 0000-9999 and edit fields that hold numbers: Start, Stop,
    an edit of the staged entry and Save append one entry to the durable
    store.  It belongs to the selected project, runs from the reading of
    Start to the reading of Stop, has as duration the whole seconds between
    the two, as date the UTC day of Start, and as edited duration what the
    fields say; the measured duration is kept beside it. *)
Theorem session_is_recorded :
  forall (tz : Z) (st : Page.State) (nowId nowStart nowDate nowStop : Z)
         (sel h m s : string) (hz mz sz : Z),
    Timer.running st = false ->
    sel <> "" ->
    In sel (map Page.p_id (Page.projects st)) ->
    -62167219200000 <= nowStart <= 253402300799999 ->
    -62167219200000 <= nowStop <= 253402300799999 ->
    Js.parseInt h = Js.Num hz ->
    Js.parseInt m = Js.Num mz ->
    Js.parseInt s = Js.Num sz ->
    exists e,
      Page.timeEntries
        (App.run tz
           [App.Start nowId nowStart nowDate sel; App.Stop nowStop;
            App.EditTime h m s; App.Save] st)
      = (Page.timeEntries st ++ [e])%list
      /\ Page.currentEntry
           (App.run tz
              [App.Start nowId nowStart nowDate sel; App.Stop nowStop;
               App.EditTime h m s; App.Save] st) = None
      /\ Page.id e = Js.toString nowId
      /\ Page.projectId e = sel
      /\ Page.startTime e = Js.isoString nowStart
      /\ Page.endTime e = Some (Js.isoString nowStop)
      /\ Page.duration e = Js.Num ((nowStop - nowStart) / 1000)
      /\ Page.date e = Js.isoDate (Js.Day nowDate)
      /\ Page.isRunning e = false
      /\ Page.editedDuration e = Some (Js.Num (hz * 3600 + mz * 60 + sz)).
Proof.
  intros tz st nowId nowStart nowDate nowStop sel h m s hz mz sz
    Hrun Hsel Hin Hs Hp Hh Hm Hsec.
  destruct (find_existing_project sel _ Hin) as (p & Hfind & _).
  assert (Hne : Js.nonEmpty sel = true)
    by (destruct sel; [now elim Hsel|reflexivity]).
  unfold App.run. cbn [fold_left App.step].
  unfold Timer.handleStart. rewrite Hne, Hrun. cbn [andb negb].
  unfold Page.startTimer. rewrite Hfind.
  unfold Timer.handleStop, Timer.running. cbn [Page.currentEntry
    Page.isRunning]. unfold Page.stopTimer. cbn [Page.currentEntry].
  unfold Timer.sessionOf. cbn [Page.currentEntry Page.stopped
    Page.isRunning]. unfold Timer.handleEditTime, Page.setCurrentEntry.
  cbn [Page.currentEntry]. unfold Timer.handleSave.
  cbn [Page.currentEntry Page.withEditedDuration Page.isRunning negb
       Page.saveEntry Page.timeEntries].
  eexists. split; [reflexivity|]. split; [reflexivity|].
  cbn [Page.id Page.projectId Page.startTime Page.endTime Page.duration
       Page.date Page.isRunning Page.editedDuration
       Page.projectName Page.stopped].
  rewrite !dateParse_isoString by assumption.
  rewrite beforeT_isoString. unfold Timer.editTotalSeconds.
  rewrite Hh, Hm, Hsec. repeat split.
Qed.

Lemma session_is_recorded_witness :
  exists e,
    Page.timeEntries
      (App.run 0
         [App.Start 1704067200000 1704067200000 1704067200000 "1";
          App.Stop 1704067290000; App.EditTime "0" "2" "0"; App.Save]
         Sample.state)
    = (Page.timeEntries Sample.state ++ [e])%list
    /\ Page.duration e = Js.Num ((1704067290000 - 1704067200000) / 1000)
    /\ Page.editedDuration e = Some (Js.Num (0 * 3600 + 2 * 60 + 0)).
Proof.
  destruct (session_is_recorded 0 Sample.state 1704067200000 1704067200000
              1704067200000 1704067290000 "1" "0" "2" "0" 0 2 0
              eq_refl ltac:(discriminate) (or_introl eq_refl)
              ltac:(lia) ltac:(lia) eq_refl eq_refl eq_refl)
    as (e & H1 & _ & _ & _ & _ & _ & H7 & _ & _ & H10).
  exists e. split; [exact H1|]. split; [exact H7|exact H10].
Defined.

(* ===================================================================== *)
(** * Today's total *)
(* ===================================================================== *)

Lemma isoDate_inj (d1 d2 : Z) :
  -719528 <= d1 <= 2932896 -> -719528 <= d2 <= 2932896 ->
  Js.isoDate d1 = Js.isoDate d2 -> d1 = d2.
Proof.
  intros H1 H2 E. apply (f_equal Js.parseIso) in E.
  rewrite !parseIso_isoDate in E by assumption.
  unfold Js.msPerDay in E. injection E. lia.
Qed.

(** An entry counts for "Today's Total" exactly when the clock reading of
    the test and the reading that dated the entry fall on the same UTC day
    (readings in the years 0000-9999), whatever the local time zone. *)
Theorem today_is_the_utc_day :
  forall (now nowDate : Z) (e : Page.TimeEntry),
    -62167219200000 <= now <= 253402300799999 ->
    -62167219200000 <= nowDate <= 253402300799999 ->
    Page.date e = Js.beforeT (Js.isoString nowDate) ->
    (Page.isToday now e = true <-> Js.Day now = Js.Day nowDate).
Proof.
  intros now nowDate e Hn Hd He. unfold Page.isToday.
  rewrite He, !beforeT_isoString, String.eqb_eq.
  assert (B : forall t, -62167219200000 <= t <= 253402300799999 ->
                        -719528 <= Js.Day t <= 2932896).
  { intros t Ht. unfold Js.Day, Js.msPerDay.
    Z.to_euclidean_division_equations; lia. }
  split; [|congruence]. intros E. symmetry.
  apply isoDate_inj; auto.
Qed.

Lemma today_is_the_utc_day_witness :
  Page.isToday 1704070800000 (Sample.entry "2024-01-01" 60 None) = true
  <-> Js.Day 1704070800000 = Js.Day 1704067200000.
Proof.
  apply (today_is_the_utc_day 1704070800000 1704067200000
           (Sample.entry "2024-01-01" 60 None)); [lia|lia|reflexivity].
Defined.

(* ===================================================================== *)
(** * The clock display *)
(* ===================================================================== *)

Lemma padStart2_small (n : Z) :
  0 <= n < 100 -> Js.padStart2 (Js.toString n) = Js.padded 2 n.
Proof.
  intros H.
  assert (K : Js.allFrom 100 0
                (fun n => String.eqb (Js.padStart2 (Js.toString n))
                                     (Js.padded 2 n)) = true)
    by (vm_compute; reflexivity).
  apply String.eqb_eq. apply (allFrom_spec _ _ _ K). lia.
Qed.

Lemma parseInt_zero_digit (c : ascii) (h : Z) :
  Js.parseInt (String c "") = Js.Num h ->
  Js.parseInt (String "0" (String c "")) = Js.Num h.
Proof.
  destruct c as [[] [] [] [] [] [] [] []]; vm_compute; intros E;
    first [discriminate E | exact E].
Qed.

Lemma parseInt_padStart2 (h : Z) :
  Js.parseInt (Js.padStart2 (Js.toString h)) = Js.Num h.
Proof.
  pose proof (parseInt_toString h) as P.
  destruct (Js.toString h) as [|c [|d r]] eqn:E; cbn [Js.padStart2].
  - vm_compute in P. discriminate P.
  - now apply parseInt_zero_digit.
  - exact P.
Qed.

Lemma string_length_app (a b : string) :
  String.length (a ++ b) = (String.length a + String.length b)%nat.
Proof. induction a as [|c a IH]; simpl; [reflexivity|now rewrite IH]. Qed.

Lemma app_inj_same_tail_length (a b x y : string) :
  String.length x = String.length y ->
  a ++ x = b ++ y -> a = b /\ x = y.
Proof.
  revert b. induction a as [|c a IH]; intros [|d b] L E; simpl in E.
  - now split.
  - subst x. simpl in L. rewrite string_length_app in L. lia.
  - subst y. simpl in L. rewrite string_length_app in L. lia.
  - injection E as -> E. destruct (IH b L E) as [-> ->]. now split.
Qed.

Lemma digitChar_inj (a b : Z) :
  0 <= a <= 9 -> 0 <= b <= 9 -> Js.digitChar a = Js.digitChar b -> a = b.
Proof.
  intros Ha Hb E. apply (f_equal (Js.digitOf 10)) in E.
  rewrite !digitOf_digitChar in E by assumption. now injection E.
Qed.

Lemma formatTime_nonneg (t : Z) :
  0 <= t ->
  Timer.formatTime (Js.Num t)
  = Js.padStart2 (Js.toString (t / 3600))
    ++ (":" ++ Js.padded 2 (t mod 3600 / 60) ++ ":" ++ Js.padded 2 (t mod 60)).
Proof.
  intros H. unfold Timer.formatTime.
  cbn [Js.floorDiv Js.remBy Js.numberToString].
  rewrite !Z.rem_mod_nonneg by lia.
  rewrite (padStart2_small (t mod 3600 / 60))
    by (Z.to_euclidean_division_equations; lia).
  rewrite (padStart2_small (t mod 60))
    by (Z.to_euclidean_division_equations; lia).
  reflexivity.
Qed.

(** For a whole, non-negative number of seconds the display is hours,
    then [":"], two digits of minutes, [":"] and two digits of seconds;
    below 100 hours the hours take two digits as well, so that the text is
    [HH:MM:SS].  Two different such numbers are never displayed alike. *)
Theorem formatTime_display :
  forall t : Z,
    0 <= t ->
    (t < 360000 ->
     Timer.formatTime (Js.Num t)
     = Js.padded 2 (t / 3600) ++ ":" ++ Js.padded 2 (t mod 3600 / 60)
       ++ ":" ++ Js.padded 2 (t mod 60))
    /\ (forall t' : Z,
          0 <= t' ->
          Timer.formatTime (Js.Num t') = Timer.formatTime (Js.Num t) ->
          t' = t).
Proof.
  intros t Ht. split.
  - intros Hlt. rewrite formatTime_nonneg by assumption.
    rewrite padStart2_small by (Z.to_euclidean_division_equations; lia).
    reflexivity.
  - intros t' Ht' E. rewrite !formatTime_nonneg in E by assumption.
    apply app_inj_same_tail_length in E; [|reflexivity].
    destruct E as [Eh Et].
    apply (f_equal Js.parseInt) in Eh.
    rewrite !parseInt_padStart2 in Eh.
    injection Eh as Eh.
    rewrite !padded2 in Et. cbn [append] in Et.
    injection Et as E1 E2 E3 E4.
    apply digitChar_inj in E1; [|Z.to_euclidean_division_equations; lia..].
    apply digitChar_inj in E2; [|Z.to_euclidean_division_equations; lia..].
    apply digitChar_inj in E3; [|Z.to_euclidean_division_equations; lia..].
    apply digitChar_inj in E4; [|Z.to_euclidean_division_equations; lia..].
    Z.to_euclidean_division_equations; lia.
Qed.

Lemma formatTime_display_witness :
  (3725 < 360000 ->
   Timer.formatTime (Js.Num 3725)
   = Js.padded 2 (3725 / 3600) ++ ":" ++ Js.padded 2 (3725 mod 3600 / 60)
     ++ ":" ++ Js.padded 2 (3725 mod 60))
  /\ (forall t' : Z,
        0 <= t' ->
        Timer.formatTime (Js.Num t') = Timer.formatTime (Js.Num 3725) ->
        t' = 3725).
Proof.
  apply (formatTime_display 3725). lia.
Defined.
